(** * rank-lib: the RANK script chunk codec

    A shallow embedding of [src/index.ts] (the encoders and decoders of the
    RANK output script, their registries and the per-platform parameters),
    together with the part of JavaScript and of Node's [Buffer] that the
    library calls.  Integers are [Z]; a buffer is the list of its bytes; a
    JavaScript string whose encoding matters is the list of its UTF-16 code
    units; registry labels, which the source writes as ASCII literals, are
    [string]s.  The ranking aggregator, of which the sources hold only the
    types, follows the codec as a fold over finite maps. *)

From Stdlib Require Import ZArith List Bool String Ascii Lia.
From stdpp Require Import base option list strings gmap.

Local Open Scope Z_scope.

(** ** Host model: JavaScript values and the Node.js Buffer API *)

(** The exceptions the modelled host functions raise. *)
Inductive JSError : Type :=
  | RangeError
  | SyntaxError
  | TypeError.

(** Outcome of a call: a returned value or a thrown exception. *)
Inductive completion (A : Type) : Type :=
  | Return (a : A)
  | Throw (e : JSError).
Arguments Return {A} a.
Arguments Throw {A} e.

#[global] Instance completion_ret : MRet completion := @Return.
#[global] Instance completion_bind : MBind completion :=
  fun A B f c => match c with
                 | Return a => f a
                 | Throw e => Throw e
                 end.

(** A JavaScript string, as its sequence of UTF-16 code units; [length] is
    the [.length] property. *)
Definition JSString : Type := list Z.

(** A Node.js Buffer, as its sequence of bytes. *)
Definition Buffer : Type := list Z.

(** An ASCII literal as a JavaScript string. *)
Definition str (s : string) : JSString :=
  List.map (fun a => Z.of_N (N_of_ascii a)) (list_ascii_of_string s).

(** *** Map: insertion-ordered, keys unique *)

Definition JSMap (V : Type) : Type := list (Z * V).

Fixpoint Map_set {V} (k : Z) (v : V) (m : JSMap V) : JSMap V :=
  match m with
  | [] => [(k, v)]
  | (k', v') :: r => if k =? k' then (k, v) :: r else (k', v') :: Map_set k v r
  end.

Fixpoint Map_get {V} (k : Z) (m : JSMap V) : option V :=
  match m with
  | [] => None
  | (k', v) :: r => if k =? k' then Some v else Map_get k r
  end.

(** Property access on an object literal keyed by strings. *)
Fixpoint Object_get {V} (o : list (string * V)) (k : string) : option V :=
  match o with
  | [] => None
  | (k', v) :: r => if String.eqb k k' then Some v else Object_get r k
  end.

(** *** UTF-8 encoding of a JavaScript string *)

Definition is_high_surrogate (c : Z) : bool := (0xD800 <=? c) && (c <=? 0xDBFF).
Definition is_low_surrogate (c : Z) : bool := (0xDC00 <=? c) && (c <=? 0xDFFF).

(** The code points of a string; a lone surrogate is read as U+FFFD, as
    Node does when it encodes. *)
Fixpoint code_points (s : JSString) : list Z :=
  match s with
  | [] => []
  | c :: r =>
      if is_high_surrogate c then
        match r with
        | d :: r' =>
            if is_low_surrogate d
            then (0x10000 + Z.shiftl (c - 0xD800) 10 + (d - 0xDC00)) :: code_points r'
            else 0xFFFD :: code_points r
        | [] => [0xFFFD]
        end
      else if is_low_surrogate c then 0xFFFD :: code_points r
      else c :: code_points r
  end.

Definition utf8_of_code_point (cp : Z) : list Z :=
  if cp <? 0x80 then [cp]
  else if cp <? 0x800 then
    [Z.lor 0xC0 (Z.shiftr cp 6); Z.lor 0x80 (Z.land cp 0x3F)]
  else if cp <? 0x10000 then
    [Z.lor 0xE0 (Z.shiftr cp 12);
     Z.lor 0x80 (Z.land (Z.shiftr cp 6) 0x3F);
     Z.lor 0x80 (Z.land cp 0x3F)]
  else
    [Z.lor 0xF0 (Z.shiftr cp 18);
     Z.lor 0x80 (Z.land (Z.shiftr cp 12) 0x3F);
     Z.lor 0x80 (Z.land (Z.shiftr cp 6) 0x3F);
     Z.lor 0x80 (Z.land cp 0x3F)].

(** The characters of a string, each as its UTF-8 bytes. *)
Definition utf8_chars (s : JSString) : list (list Z) :=
  List.map utf8_of_code_point (code_points s).

(** [Buffer.byteLength(s, 'utf8')]. *)
Definition utf8_byteLength (s : JSString) : nat :=
  length (concat (utf8_chars s)).

(** The bytes [utf8Write] puts into [room] bytes: whole characters from the
    front of the string, stopping at the first one that does not fit (a
    partially encoded character is never written). *)
Fixpoint utf8_fit (chars : list (list Z)) (room : nat) : list Z :=
  match chars with
  | [] => []
  | c :: r =>
      if (length c <=? room)%nat
      then c ++ utf8_fit r (room - length c)
      else []
  end.

(** *** Buffer *)

(** [Buffer.alloc(size)]: zero filled; a negative size is rejected. *)
Definition Buffer_alloc (size : Z) : completion Buffer :=
  if size <? 0 then Throw RangeError
  else Return (replicate (Z.to_nat size) 0).

(** [buf.write(string, offset, 'utf8')]: the offset is validated against
    [0 .. buf.length], then as much of the string as fits in the remaining
    bytes is written.  The buffer is mutated in place; the model returns its
    new contents. *)
Definition Buffer_write (buf : Buffer) (s : JSString) (offset : Z)
  : completion Buffer :=
  if (offset <? 0) || (Z.of_nat (length buf) <? offset) then Throw RangeError
  else
    let off := Z.to_nat offset in
    let written := utf8_fit (utf8_chars s) (length buf - off) in
    Return (take off buf ++ written ++ drop (off + length written) buf).

(** [Buffer.from(array)]: every entry is truncated to a byte. *)
Definition Buffer_from_array (a : list Z) : Buffer :=
  List.map (fun x => Z.land x 255) a.

(** [Buffer.from(string)] with the default encoding, UTF-8. *)
Definition Buffer_from_utf8 (s : JSString) : Buffer :=
  concat (utf8_chars s).

(** [buf.readUint8()] at offset 0. *)
Definition Buffer_readUint8 (buf : Buffer) : completion Z :=
  match buf with
  | [] => Throw RangeError
  | b :: _ => Return b
  end.

(** [buf.filter(byte => byte != 0x00)]. *)
Definition Buffer_filter_nonzero (buf : Buffer) : Buffer :=
  List.filter (fun byte => negb (byte =? 0x00)) buf.

(** *** Hexadecimal strings *)

Definition hex_digit (d : Z) : Z :=
  if d <? 10 then 48 + d else 87 + d.

Definition unhex (c : Z) : option Z :=
  if (48 <=? c) && (c <=? 57) then Some (c - 48)
  else if (97 <=? c) && (c <=? 102) then Some (c - 87)
  else if (65 <=? c) && (c <=? 70) then Some (c - 55)
  else None.

(** [Buffer.from(string, 'hex')]: pairs of hexadecimal digits, one byte
    each; decoding stops at the first pair that is not two hexadecimal
    digits, and a trailing single character is dropped. *)
Fixpoint Buffer_from_hex (s : JSString) : Buffer :=
  match s with
  | a :: b :: r =>
      match unhex a, unhex b with
      | Some x, Some y => (16 * x + y) :: Buffer_from_hex r
      | _, _ => []
      end
  | _ => []
  end.

(** [buf.toString('hex')]. *)
Definition Buffer_toString_hex (buf : Buffer) : JSString :=
  concat (List.map (fun b => [hex_digit (b / 16); hex_digit (b mod 16)]) buf).

(** *** BigInt *)

(** White space and line terminators, the characters [StringToBigInt]
    strips from both ends. *)
Definition is_StrWhiteSpaceChar (c : Z) : bool :=
  ((9 <=? c) && (c <=? 13)) || (c =? 32) || (c =? 0xA0) || (c =? 0x1680)
  || ((0x2000 <=? c) && (c <=? 0x200A)) || (c =? 0x2028) || (c =? 0x2029)
  || (c =? 0x202F) || (c =? 0x205F) || (c =? 0x3000) || (c =? 0xFEFF).

Fixpoint drop_ws (s : JSString) : JSString :=
  match s with
  | [] => []
  | c :: r => if is_StrWhiteSpaceChar c then drop_ws r else s
  end.

Definition trim_ws (s : JSString) : JSString :=
  rev (drop_ws (rev (drop_ws s))).

Definition digit_value (radix c : Z) : option Z :=
  match unhex c with
  | Some d => if d <? radix then Some d else None
  | None => None
  end.

Fixpoint digits_value (radix acc : Z) (s : JSString) : option Z :=
  match s with
  | [] => Some acc
  | c :: r =>
      match digit_value radix c with
      | Some d => digits_value radix (acc * radix + d) r
      | None => None
      end
  end.

(** One or more digits of the radix. *)
Definition parse_digits (radix : Z) (s : JSString) : option Z :=
  match s with
  | [] => None
  | _ => digits_value radix 0 s
  end.

(** [StringToBigInt]: the trimmed text is empty (zero), a decimal integer
    with an optional sign, or an unsigned literal with prefix 0x, 0o or 0b
    (either case); anything else has no value. *)
Definition StringToBigInt (s : JSString) : option Z :=
  match trim_ws s with
  | [] => Some 0
  | c :: r =>
      if c =? 43 then parse_digits 10 r
      else if c =? 45 then Z.opp <$> parse_digits 10 r
      else if c =? 48 then
        match r with
        | p :: r' =>
            if (p =? 120) || (p =? 88) then parse_digits 16 r'
            else if (p =? 111) || (p =? 79) then parse_digits 8 r'
            else if (p =? 98) || (p =? 66) then parse_digits 2 r'
            else parse_digits 10 (c :: r)
        | [] => Some 0
        end
      else parse_digits 10 (c :: r)
  end.

(** [BigInt(string)]: a string with no BigInt value is a SyntaxError. *)
Definition BigInt (s : JSString) : completion Z :=
  match StringToBigInt s with
  | Some v => Return v
  | None => Throw SyntaxError
  end.

Fixpoint hex_digits (fuel : nat) (n : Z) (acc : JSString) : JSString :=
  match fuel with
  | O => acc
  | S f =>
      let acc' := hex_digit (n mod 16) :: acc in
      if n <? 16 then acc' else hex_digits f (n / 16) acc'
  end.

(** [v.toString(16)] of a BigInt: lower-case digits, no leading zero, a
    minus sign for a negative value. *)
Definition BigInt_toString16 (v : Z) : JSString :=
  let mag := Z.abs v in
  let digits := hex_digits (S (Z.to_nat (Z.log2 mag))) mag [] in
  if v <? 0 then 45 :: digits else digits.

(** *** TextDecoder('utf-8') *)

(** State of the UTF-8 decoder of the Encoding standard. *)
Record utf8_state : Type := mk_utf8_state {
  u_code_point : Z;
  u_seen : Z;
  u_needed : Z;
  u_lower : Z;
  u_upper : Z
}.

Definition utf8_init : utf8_state := mk_utf8_state 0 0 0 0x80 0xBF.

(** A byte met when no continuation byte is expected. *)
Definition utf8_lead (b : Z) : list Z * utf8_state :=
  if b <=? 0x7F then ([b], utf8_init)
  else if (0xC2 <=? b) && (b <=? 0xDF) then
    ([], mk_utf8_state (Z.land b 0x1F) 0 1 0x80 0xBF)
  else if (0xE0 <=? b) && (b <=? 0xEF) then
    ([], mk_utf8_state (Z.land b 0xF) 0 2
           (if b =? 0xE0 then 0xA0 else 0x80)
           (if b =? 0xED then 0x9F else 0xBF))
  else if (0xF0 <=? b) && (b <=? 0xF4) then
    ([], mk_utf8_state (Z.land b 0x7) 0 3
           (if b =? 0xF0 then 0x90 else 0x80)
           (if b =? 0xF4 then 0x8F else 0xBF))
  else ([0xFFFD], utf8_init).

Fixpoint utf8_decode_from (st : utf8_state) (bs : list Z) : list Z :=
  match bs with
  | [] => if u_needed st =? 0 then [] else [0xFFFD]
  | b :: r =>
      if u_needed st =? 0 then
        let '(out, st') := utf8_lead b in out ++ utf8_decode_from st' r
      else if (b <? u_lower st) || (u_upper st <? b) then
        (* not a continuation byte: one error, and the byte is read again
           from the initial state *)
        let '(out, st') := utf8_lead b in
        0xFFFD :: out ++ utf8_decode_from st' r
      else
        let cp := Z.lor (Z.shiftl (u_code_point st) 6) (Z.land b 0x3F) in
        if u_seen st + 1 =? u_needed st then cp :: utf8_decode_from utf8_init r
        else utf8_decode_from
               (mk_utf8_state cp (u_seen st + 1) (u_needed st) 0x80 0xBF) r
  end.

(** Code points back to UTF-16 code units. *)
Definition utf16_of_code_point (cp : Z) : list Z :=
  if cp <? 0x10000 then [cp]
  else [0xD800 + Z.shiftr (cp - 0x10000) 10; 0xDC00 + Z.land (cp - 0x10000) 0x3FF].

(** [new TextDecoder('utf-8').decode(buf)]: malformed input decodes to
    U+FFFD and a leading byte order mark is dropped. *)
Definition TextDecoder_decode (buf : Buffer) : JSString :=
  let cps := utf8_decode_from utf8_init buf in
  let cps' := match cps with
              | c :: r => if c =? 0xFEFF then r else cps
              | [] => []
              end in
  concat (List.map utf16_of_code_point cps').

(** ** The library: types and static configuration ([src/index.ts]) *)

Local Open Scope string_scope.
Local Open Scope list_scope.
Local Open Scope Z_scope.

(** [PlatformParameters.postId.type]. *)
Inductive PostIdType : Type :=
  | BigIntType   (* 'BigInt' *)
  | NumberType   (* 'Number' *)
  | StringType.  (* 'String' *)

(** [PlatformParameters]; the regular expression is kept as its [test]. *)
Record PlatformParameters : Type := {
  profileId_len : Z;
  postId_len : Z;
  postId_regex : JSString -> bool;
  postId_reader : string;
  postId_type : PostIdType
}.

(** [ScriptChunk]: optional offset, length or [null], optional registry. *)
Record ScriptChunk : Type := {
  chunk_offset : option Z;
  chunk_len : option Z;
  chunk_map : option (JSMap string)
}.

Definition RANK_OUTPUT_MIN_VALID_SATS : Z := 1000000.

Definition SCRIPT_CHUNK_LOKAD : JSMap string :=
  Map_set 0x52414e4b "RANK" [].

Definition SCRIPT_CHUNK_SENTIMENT : JSMap string :=
  Map_set 0x00 "negative" (Map_set 0x51 "positive" []).

Definition SCRIPT_CHUNK_PLATFORM : JSMap string :=
  Map_set 0x01 "twitter" [].

Definition RANK_SCRIPT_REQUIRED_LENGTH : Z := 10.

Definition RANK_SCRIPT_CHUNKS_REQUIRED : list (string * ScriptChunk) :=
  [ ("lokad",
      {| chunk_offset := Some 2; chunk_len := Some 4;
         chunk_map := Some SCRIPT_CHUNK_LOKAD |});
    ("sentiment",
      {| chunk_offset := Some 6; chunk_len := Some 1;
         chunk_map := Some SCRIPT_CHUNK_SENTIMENT |});
    ("platform",
      {| chunk_offset := Some 8; chunk_len := Some 1;
         chunk_map := Some SCRIPT_CHUNK_PLATFORM |});
    ("profileId",
      {| chunk_offset := Some 10; chunk_len := None; chunk_map := None |}) ].

Definition RANK_SCRIPT_CHUNKS_OPTIONAL : list (string * ScriptChunk) :=
  [ ("postId", {| chunk_offset := None; chunk_len := None; chunk_map := None |});
    ("comment", {| chunk_offset := None; chunk_len := None; chunk_map := None |}) ].

Definition is_decimal_digit (c : Z) : bool := (48 <=? c) && (c <=? 57).

(** [/^[0-9]+$/.test(s)]: one or more decimal digits and nothing else. *)
Definition regex_decimal_digits (s : JSString) : bool :=
  match s with
  | [] => false
  | _ => forallb is_decimal_digit s
  end.

(** [/[0-9]+/.test(s)], the unanchored pattern of the earlier revision of
    the file: some decimal digit occurs. *)
Definition regex_some_digit (s : JSString) : bool :=
  existsb is_decimal_digit s.

Definition PLATFORMS : list (string * PlatformParameters) :=
  [ ("twitter",
      {| profileId_len := 16;
         postId_len := 8;
         postId_regex := regex_decimal_digits;
         postId_reader := "readBigUInt64BE";
         postId_type := BigIntType |}) ].

(** ** The library: encoders and decoders *)

Definition toProfileIdBuf (platform : string) (profileId : JSString)
  : completion Buffer :=
  match Object_get PLATFORMS platform with
  | None => Throw TypeError
  | Some platformSpec =>
      profileBuf ← Buffer_alloc (profileId_len platformSpec);
      Buffer_write profileBuf profileId
        (profileId_len platformSpec - Z.of_nat (length profileId))
  end.

Definition toProfileIdUTF8 (profileIdBuf : Buffer) : JSString :=
  TextDecoder_decode (Buffer_filter_nonzero profileIdBuf).

Section PostId.

(** [Number(postId).toString(16)] is double-precision arithmetic and is
    left abstract; no platform of [PLATFORMS] selects it. *)
Variable Number_toString16 : JSString -> JSString.

Definition toPostIdBuf (platform : string) (postId : JSString)
  : completion Buffer :=
  match Object_get PLATFORMS platform with
  | None => Throw TypeError
  | Some platformSpec =>
      match postId_type platformSpec with
      | BigIntType =>
          v ← BigInt postId;
          mret (Buffer_from_hex (BigInt_toString16 v))
      | NumberType =>
          mret (Buffer_from_hex (Number_toString16 postId))
      | StringType =>
          mret (Buffer_from_hex (Buffer_toString_hex (Buffer_from_utf8 postId)))
      end
  end.

End PostId.

(** The [for ... of] loop of [toPlatformBuf] over the entries of a registry,
    in insertion order. *)
Fixpoint toPlatformBuf_loop (entries : JSMap string) (platform : string)
  : option Buffer :=
  match entries with
  | [] => None
  | (byte, platformName) :: rest =>
      if String.eqb platformName platform
      then Some (Buffer_from_array [byte])
      else toPlatformBuf_loop rest platform
  end.

Definition toPlatformBuf (platform : string) : option Buffer :=
  toPlatformBuf_loop SCRIPT_CHUNK_PLATFORM platform.

Definition toPlatformUTF8 (platformBuf : Buffer) : completion (option string) :=
  byte ← Buffer_readUint8 platformBuf;
  mret (Map_get byte SCRIPT_CHUNK_PLATFORM).

Definition toSentimentOpCode (sentiment : string) : option string :=
  if String.eqb sentiment "positive" then Some "OP_1"
  else if String.eqb sentiment "negative" then Some "OP_0"
  else None.

Definition toSentimentUTF8 (sentimentBuf : Buffer) : completion (option string) :=
  byte ← Buffer_readUint8 sentimentBuf;
  mret (Map_get byte SCRIPT_CHUNK_SENTIMENT).

Definition toCommentUTF8 (commentBuf : Buffer) : JSString :=
  TextDecoder_decode commentBuf.

(** Modelled from the spec: the byte of the script opcode that a name
    returned by [toSentimentOpCode] stands for.  The opcode table belongs to
    the script library of the callers and is not in the sources; the spec's
    grammar table and the comments on [SCRIPT_CHUNK_SENTIMENT] give
    [0x51] for OP_1 (OP_TRUE) and [0x00] for OP_0 (OP_FALSE). *)
Definition Opcode_byte (name : string) : option Z :=
  if String.eqb name "OP_1" then Some 0x51
  else if String.eqb name "OP_0" then Some 0x00
  else None.

(** ** The library: [Util.base64] *)

(** [buf.toString('utf8')]: the UTF-8 decoder, malformed input decoding to
    U+FFFD; a byte order mark is kept. *)
Definition Buffer_toString_utf8 (buf : Buffer) : JSString :=
  concat (List.map utf16_of_code_point (utf8_decode_from utf8_init buf)).

(** The character of a six-bit value in the base64 alphabet. *)
Definition base64_char (v : Z) : Z :=
  if v <? 26 then 65 + v
  else if v <? 52 then 97 + (v - 26)
  else if v <? 62 then 48 + (v - 52)
  else if v =? 62 then 43
  else 47.

(** [buf.toString('base64')]: four characters for every three bytes, the
    last group padded with [=]. *)
Fixpoint Buffer_toString_base64 (buf : Buffer) : JSString :=
  match buf with
  | [] => []
  | [a] =>
      [base64_char (Z.shiftr a 2);
       base64_char (Z.shiftl (Z.land a 3) 4);
       61; 61]
  | [a; b] =>
      [base64_char (Z.shiftr a 2);
       base64_char (Z.lor (Z.shiftl (Z.land a 3) 4) (Z.shiftr b 4));
       base64_char (Z.shiftl (Z.land b 0xF) 2);
       61]
  | a :: b :: c :: r =>
      base64_char (Z.shiftr a 2)
      :: base64_char (Z.lor (Z.shiftl (Z.land a 3) 4) (Z.shiftr b 4))
      :: base64_char (Z.lor (Z.shiftl (Z.land b 0xF) 2) (Z.shiftr c 6))
      :: base64_char (Z.land c 0x3F)
      :: Buffer_toString_base64 r
  end.

(** The six-bit value of a character, in the standard alphabet or in the
    URL and filename safe one. *)
Definition unbase64 (c : Z) : option Z :=
  if (65 <=? c) && (c <=? 90) then Some (c - 65)
  else if (97 <=? c) && (c <=? 122) then Some (c - 97 + 26)
  else if (48 <=? c) && (c <=? 57) then Some (c - 48 + 52)
  else if (c =? 43) || (c =? 45) then Some 62
  else if (c =? 47) || (c =? 95) then Some 63
  else None.

(** Node's base64 decoder, from a position in a group of four characters
    ([phase]) with the previous six-bit value ([hi]): a character is read
    by its low eight bits; one outside the alphabet is skipped, except [=],
    which ends the decoding; a byte is produced for the second, third and
    fourth character of a group. *)
Fixpoint base64_decode_from (phase : nat) (hi : Z) (s : JSString) : Buffer :=
  match s with
  | [] => []
  | u :: r =>
      let c := Z.land u 255 in
      match unbase64 c with
      | Some lo =>
          match phase with
          | 0%nat => base64_decode_from 1 lo r
          | 1%nat =>
              Z.lor (Z.shiftl (Z.land hi 0x3F) 2) (Z.shiftr (Z.land lo 0x30) 4)
              :: base64_decode_from 2 lo r
          | 2%nat =>
              Z.lor (Z.shiftl (Z.land hi 0x0F) 4) (Z.shiftr (Z.land lo 0x3C) 2)
              :: base64_decode_from 3 lo r
          | _ =>
              Z.lor (Z.shiftl (Z.land hi 0x03) 6) (Z.land lo 0x3F)
              :: base64_decode_from 0 lo r
          end
      | None => if c =? 61 then [] else base64_decode_from phase hi r
      end
  end.

(** [Buffer.from(string, 'base64')]. *)
Definition Buffer_from_base64 (s : JSString) : Buffer :=
  base64_decode_from 0 0 s.

(** [Util.base64.encode]. *)
Definition Util_base64_encode (s : JSString) : JSString :=
  Buffer_toString_base64 (Buffer_from_utf8 s).

(** [Util.base64.decode]. *)
Definition Util_base64_decode (s : JSString) : JSString :=
  Buffer_toString_utf8 (Buffer_from_base64 s).

(** ** The ranking aggregator

    The sources declare the shapes the aggregator works on ([RankTransaction],
    [RankTarget], [ProfileMap], [PostMap]) and none of its code; its
    transitions are modelled from the spec's component design. *)

(** [ScriptChunkSentimentUTF8 = 'positive' | 'negative']. *)
Inductive Sentiment : Type :=
  | Positive
  | Negative.

Definition Sentiment_UTF8 (s : Sentiment) : string :=
  match s with
  | Positive => "positive"
  | Negative => "negative"
  end.

(** [RankTransaction]: the decoded output and the transaction's metadata. *)
Record RankTransaction : Type := {
  tx_txid : string;
  tx_sentiment : Sentiment;
  tx_platform : string;
  tx_profileId : string;
  tx_postId : option string;
  tx_scriptPayload : string;
  tx_height : option Z;
  tx_sats : Z;
  tx_timestamp : Z
}.

(** [RankTarget], the base of [Profile] and [Post]. *)
Record RankTarget : Type := {
  target_id : string;
  target_platform : string;
  ranking : Z;
  ranks : list RankTransaction;
  votesPositive : Z;
  votesNegative : Z
}.

(** [ProfileMap] and [PostMap], flattened: aggregates keyed by platform and
    identifier. *)
Record Aggregator : Type := {
  profiles : gmap (string * string) RankTarget;
  posts : gmap (string * string) RankTarget
}.

Definition Aggregator_empty : Aggregator :=
  {| profiles := ∅; posts := ∅ |}.

(** Modelled from the spec: the ranking score, the difference of the two
    vote counters. *)
Definition score (positive negative : Z) : Z := positive - negative.

(** Modelled from the spec: the aggregate the first transaction of a key
    creates (Unseen to Tracked). *)
Definition RankTarget_create (platform id : string) (tx : RankTransaction)
  : RankTarget :=
  let p := match tx_sentiment tx with Positive => 1 | Negative => 0 end in
  let n := match tx_sentiment tx with Positive => 0 | Negative => 1 end in
  {| target_id := id; target_platform := platform;
     ranking := score p n; ranks := [tx];
     votesPositive := p; votesNegative := n |}.

(** Modelled from the spec: a further transaction of a tracked key is
    appended to [ranks], its vote counter incremented and the ranking
    recomputed; a txid already in [ranks] changes nothing. *)
Definition RankTarget_append (tx : RankTransaction) (t : RankTarget)
  : RankTarget :=
  if decide (tx_txid tx ∈ tx_txid <$> ranks t) then t
  else
    let p := match tx_sentiment tx with
             | Positive => votesPositive t + 1
             | Negative => votesPositive t
             end in
    let n := match tx_sentiment tx with
             | Positive => votesNegative t
             | Negative => votesNegative t + 1
             end in
    {| target_id := target_id t; target_platform := target_platform t;
       ranking := score p n; ranks := ranks t ++ [tx];
       votesPositive := p; votesNegative := n |}.

Definition track (platform id : string) (tx : RankTransaction)
    (o : option RankTarget) : option RankTarget :=
  match o with
  | None => Some (RankTarget_create platform id tx)
  | Some t => Some (RankTarget_append tx t)
  end.

(** Modelled from the spec: ingestion of one decoded transaction into the
    aggregate of its key, the post it names or else its profile. *)
Definition ingest (tx : RankTransaction) (st : Aggregator) : Aggregator :=
  match tx_postId tx with
  | None =>
      {| profiles := partial_alter (track (tx_platform tx) (tx_profileId tx) tx)
                       (tx_platform tx, tx_profileId tx) (profiles st);
         posts := posts st |}
  | Some postId =>
      {| profiles := profiles st;
         posts := partial_alter (track (tx_platform tx) postId tx)
                    (tx_platform tx, postId) (posts st) |}
  end.

(** The transactions of [ranks] that survive an eviction, with the two
    counters decremented once for each transaction removed. *)
Fixpoint evict_ranks (evicted : gset string) (l : list RankTransaction)
    (positive negative : Z) : list RankTransaction * Z * Z :=
  match l with
  | [] => ([], positive, negative)
  | tx :: r =>
      let '(r', p, n) := evict_ranks evicted r positive negative in
      if decide (tx_txid tx ∈ evicted) then
        match tx_sentiment tx with
        | Positive => (r', p - 1, n)
        | Negative => (r', p, n - 1)
        end
      else (tx :: r', p, n)
  end.

(** Modelled from the spec: rollback of one target; a target left without
    transactions reverts to Unseen. *)
Definition RankTarget_rollback (evicted : gset string) (t : RankTarget)
  : option RankTarget :=
  let '(r, p, n) :=
    evict_ranks evicted (ranks t) (votesPositive t) (votesNegative t) in
  match r with
  | [] => None
  | _ =>
      Some {| target_id := target_id t; target_platform := target_platform t;
              ranking := score p n; ranks := r;
              votesPositive := p; votesNegative := n |}
  end.

(** Modelled from the spec: rollback, on a reorganization, of a set of
    evicted txids over every aggregate. *)
Definition rollback (evicted : gset string) (st : Aggregator) : Aggregator :=
  {| profiles := omap (RankTarget_rollback evicted) (profiles st);
     posts := omap (RankTarget_rollback evicted) (posts st) |}.

(** What the aggregator is asked to do, one step at a time. *)
Inductive AggregatorOp : Type :=
  | Ingest (tx : RankTransaction)
  | Rollback (evicted : gset string).

Definition apply_op (st : Aggregator) (op : AggregatorOp) : Aggregator :=
  match op with
  | Ingest tx => ingest tx st
  | Rollback evicted => rollback evicted st
  end.

(** The state after a sequence of ingestions and rollbacks, oldest first. *)
Definition run (ops : list AggregatorOp) (st : Aggregator) : Aggregator :=
  fold_left apply_op ops st.

(** The invariant of one aggregate: the two counters add up to the number of
    contributing transactions. *)
Definition votes_match (t : RankTarget) : Prop :=
  votesPositive t + votesNegative t = Z.of_nat (length (ranks t)).

Definition Aggregator_consistent (st : Aggregator) : Prop :=
  map_Forall (fun _ t => votes_match t) (profiles st)
  ∧ map_Forall (fun _ t => votes_match t) (posts st).

(** ** Vocabulary of the properties *)

(** A string of ASCII characters other than NUL. *)
Definition ascii_text (s : JSString) : Prop :=
  Forall (fun c => 0 < c < 128) s.

(** The string opens like one of the literals [BigInt] reads besides plain
    decimal digits: a sign, or 0x, 0o, 0b in either case. *)
Definition has_sign_or_radix_prefix (s : JSString) : bool :=
  match s with
  | [] => false
  | c :: r =>
      (c =? 43) || (c =? 45)
      || ((c =? 48)
          && match r with
             | [] => false
             | p :: _ =>
                 (p =? 120) || (p =? 88) || (p =? 111) || (p =? 79)
                 || (p =? 98) || (p =? 66)
             end)
  end.

Definition no_white_space (s : JSString) : Prop :=
  Forall (fun c => is_StrWhiteSpaceChar c = false) s.

(** The integer a sequence of bytes denotes, most significant byte first. *)
Definition big_endian_value (bs : Buffer) : Z :=
  fold_left (fun acc b => acc * 256 + b) bs 0.

(** Modelled from the spec: the natural big-endian minimal encoding of a
    non-negative integer, that is bytes that denote it with no zero byte in
    front. *)
Definition minimal_big_endian (n : Z) (bs : Buffer) : Prop :=
  Forall (fun b => 0 <= b < 256) bs
  /\ big_endian_value bs = n
  /\ (forall b r, bs = b :: r -> b <> 0).

(** A vote for the profile abc on twitter. *)
Definition vote_for_abc (txid : string) (sentiment : Sentiment) : RankTransaction :=
  {| tx_txid := txid; tx_sentiment := sentiment;
     tx_platform := "twitter"; tx_profileId := "abc"; tx_postId := None;
     tx_scriptPayload := ""; tx_height := Some 952169;
     tx_sats := RANK_OUTPUT_MIN_VALID_SATS; tx_timestamp := 0 |}.

(** Two positive votes and a negative one for the same profile, the first
    ingested twice, then a reorganization that evicts the negative vote. *)
Definition reorg_scenario : list AggregatorOp :=
  [ Ingest (vote_for_abc "t1" Positive);
    Ingest (vote_for_abc "t2" Positive);
    Ingest (vote_for_abc "t1" Positive);
    Ingest (vote_for_abc "t3" Negative);
    Rollback {[ "t3" ]} ].

(** The integer a sequence of hexadecimal digit values denotes. *)
Definition hex_value (ds : list Z) : Z :=
  fold_left (fun acc d => acc * 16 + d) ds 0.

(** A string is well formed when every code unit is a 16-bit value and
    the surrogates come in pairs, a high one followed by a low one. *)
Fixpoint well_formed (s : JSString) : bool :=
  match s with
  | [] => true
  | c :: r =>
      if is_high_surrogate c then
        match r with
        | d :: r' => is_low_surrogate d && well_formed r'
        | [] => false
        end
      else if is_low_surrogate c then false
      else (0 <=? c) && (c <=? 0xFFFF) && well_formed r
  end.

(** A Unicode scalar value: a code point that is not a surrogate. *)
Definition scalar_value (cp : Z) : Prop :=
  0 <= cp < 0xD800 \/ 0xE000 <= cp <= 0x10FFFF.

(** The string without the byte order mark it may start with. *)
Definition strip_bom (s : JSString) : JSString :=
  match s with
  | c :: r => if c =? 0xFEFF then r else s
  | [] => []
  end.

(** * Properties *)

(** ** The host model *)

Lemma utf8_fit_length (chars : list (list Z)) (room : nat) :
  (length (utf8_fit chars room) <= room)%nat.
Proof.
  revert room. induction chars as [|c r IH]; intros room; simpl.
  - lia.
  - destruct (Nat.leb_spec (length c) room) as [Hfit|Hno]; simpl.
    + rewrite length_app. specialize (IH (room - length c)%nat). lia.
    + lia.
Qed.

(** [write] never changes the length of the buffer it writes into. *)
Lemma Buffer_write_length (buf : Buffer) (s : JSString) (offset : Z) (out : Buffer) :
  Buffer_write buf s offset = Return out -> length out = length buf.
Proof.
  unfold Buffer_write.
  destruct ((offset <? 0) || (Z.of_nat (length buf) <? offset)) eqn:Hrange;
    [discriminate|].
  intros [= <-].
  apply orb_false_iff in Hrange as [Hlo Hhi].
  apply Z.ltb_ge in Hlo. apply Z.ltb_ge in Hhi.
  pose proof (utf8_fit_length (utf8_chars s) (length buf - Z.to_nat offset)) as Hfit.
  rewrite !length_app, length_take, length_drop. lia.
Qed.

Lemma Buffer_write_out_of_range (buf : Buffer) (s : JSString) (offset : Z) :
  offset < 0 -> Buffer_write buf s offset = Throw RangeError.
Proof.
  intros Hneg. unfold Buffer_write.
  destruct (Z.ltb_spec offset 0) as [_|Hge]; [reflexivity | lia].
Qed.

Lemma Buffer_alloc_length (size : Z) (buf : Buffer) :
  Buffer_alloc size = Return buf -> Z.of_nat (length buf) = size.
Proof.
  unfold Buffer_alloc. destruct (Z.ltb_spec size 0) as [|Hge]; [discriminate|].
  intros [= <-]. rewrite length_replicate. lia.
Qed.

Lemma Buffer_alloc_throws (size : Z) (e : JSError) :
  Buffer_alloc size = Throw e -> e = RangeError.
Proof.
  unfold Buffer_alloc. destruct (size <? 0); [|discriminate]. congruence.
Qed.

(** ** toProfileIdBuf *)

(** C10: whenever [toProfileIdBuf] returns, the buffer has exactly the
    platform's configured [profileId.len] bytes (16 for twitter), whatever
    the profileId holds and however long its encoding is. *)
Theorem toProfileIdBuf_length
    (platform : string) (platformSpec : PlatformParameters)
    (profileId : JSString) (buf : Buffer) :
  Object_get PLATFORMS platform = Some platformSpec ->
  toProfileIdBuf platform profileId = Return buf ->
  Z.of_nat (length buf) = profileId_len platformSpec.
Proof.
  intros Hspec. unfold toProfileIdBuf. rewrite Hspec.
  destruct (Buffer_alloc (profileId_len platformSpec)) as [profileBuf|e] eqn:Halloc;
    simpl; [|discriminate].
  intros Hwrite. apply Buffer_write_length in Hwrite.
  apply Buffer_alloc_length in Halloc. congruence.
Qed.

Lemma toProfileIdBuf_length_witness :
  exists buf : Buffer,
    toProfileIdBuf "twitter" (str "elonmusk") = Return buf
    /\ Z.of_nat (length buf) = 16.
Proof.
  eexists. split.
  - reflexivity.
  - exact (toProfileIdBuf_length "twitter" _ (str "elonmusk") _ eq_refl eq_refl).
Defined.

(** Where the code does what C1 asks: a profileId with more UTF-16 code
    units (the string's [.length]) than the platform's [profileId.len], such
    as 17 ASCII characters for twitter, makes [toProfileIdBuf] throw a
    RangeError, raised for the negative offset; no buffer is returned. *)
Theorem toProfileIdBuf_too_many_code_units
    (platform : string) (platformSpec : PlatformParameters)
    (profileId : JSString) :
  Object_get PLATFORMS platform = Some platformSpec ->
  profileId_len platformSpec < Z.of_nat (length profileId) ->
  toProfileIdBuf platform profileId = Throw RangeError.
Proof.
  intros Hspec Hlong. unfold toProfileIdBuf. rewrite Hspec.
  destruct (Buffer_alloc (profileId_len platformSpec)) as [profileBuf|e] eqn:Halloc;
    simpl.
  - apply Buffer_write_out_of_range. lia.
  - apply Buffer_alloc_throws in Halloc. congruence.
Qed.

Lemma toProfileIdBuf_too_many_code_units_witness :
  toProfileIdBuf "twitter" (str "abcdefghijklmnopq") = Throw RangeError.
Proof.
  apply (toProfileIdBuf_too_many_code_units "twitter" _ _ eq_refl).
  simpl. lia.
Defined.

(** C1 at a profileId of nine two-byte characters: it encodes to 18 bytes,
    more than twitter's 16, so C1 asks for a failure; the offset is computed
    from the string's nine code units, so [toProfileIdBuf] returns a buffer,
    and the buffer holds only the first four characters. *)
Lemma toProfileIdBuf_truncates_multibyte :
  (16 < utf8_byteLength (replicate 9 0xE9%Z))%nat
  /\ toProfileIdBuf "twitter" (replicate 9 0xE9)
     = Return [0; 0; 0; 0; 0; 0; 0; 0xC3; 0xA9; 0xC3; 0xA9; 0xC3; 0xA9; 0xC3; 0xA9; 0]
  /\ toProfileIdUTF8 [0; 0; 0; 0; 0; 0; 0; 0xC3; 0xA9; 0xC3; 0xA9; 0xC3; 0xA9; 0xC3; 0xA9; 0]
     = replicate 4 0xE9.
Proof.
  split; [|split].
  - vm_compute. lia.
  - reflexivity.
  - reflexivity.
Qed.

(** ** The profileId round trip *)

Lemma code_points_ascii (s : JSString) : ascii_text s -> code_points s = s.
Proof.
  induction 1 as [|c r Hc _ IH]; simpl; [reflexivity|].
  unfold is_high_surrogate, is_low_surrogate.
  destruct (Z.leb_spec 0xD800 c); [lia|]. simpl.
  destruct (Z.leb_spec 0xDC00 c); [lia|]. simpl.
  by rewrite IH.
Qed.

Lemma utf8_chars_ascii (s : JSString) :
  ascii_text s -> utf8_chars s = List.map (fun c => [c]) s.
Proof.
  intros Hs. unfold utf8_chars. rewrite (code_points_ascii s Hs).
  induction Hs as [|c r Hc _ IH]; simpl; [reflexivity|].
  rewrite IH. unfold utf8_of_code_point.
  destruct (Z.ltb_spec c 0x80); [reflexivity | lia].
Qed.

Lemma utf8_fit_singletons (s : list Z) (room : nat) :
  (length s <= room)%nat -> utf8_fit (List.map (fun c => [c]) s) room = s.
Proof.
  revert room. induction s as [|c r IH]; intros room Hroom; simpl in *;
    [reflexivity|].
  destruct room as [|room]; [lia|]. simpl.
  rewrite Nat.sub_0_r, IH by lia. reflexivity.
Qed.

Lemma Buffer_filter_nonzero_padding (n : nat) (s : list Z) :
  ascii_text s -> Buffer_filter_nonzero (replicate n 0 ++ s) = s.
Proof.
  intros Hs. unfold Buffer_filter_nonzero.
  induction n as [|n IH]; simpl; [|exact IH].
  induction Hs as [|c r Hc _ IH]; simpl; [reflexivity|].
  destruct (Z.eqb_spec c 0); [lia|]. simpl. by rewrite IH.
Qed.

Lemma utf8_decode_ascii (s : list Z) :
  ascii_text s -> utf8_decode_from utf8_init s = s.
Proof.
  induction 1 as [|c r Hc _ IH]; simpl; [reflexivity|].
  unfold utf8_lead. destruct (Z.leb_spec c 0x7F); [|lia].
  simpl. by rewrite IH.
Qed.

Lemma TextDecoder_decode_ascii (s : list Z) :
  ascii_text s -> TextDecoder_decode s = s.
Proof.
  intros Hs. unfold TextDecoder_decode. rewrite (utf8_decode_ascii s Hs).
  assert (Hunits : concat (List.map utf16_of_code_point s) = s).
  { induction Hs as [|c r Hc _ IH]; simpl; [reflexivity|].
    rewrite IH. unfold utf16_of_code_point.
    destruct (Z.ltb_spec c 0x10000); [reflexivity | lia]. }
  destruct Hs as [|c r Hc Hr]; [reflexivity|].
  destruct (Z.eqb_spec c 0xFEFF); [lia | exact Hunits].
Qed.

(** What [toProfileIdBuf] builds from ASCII text that fits: the text, right
    aligned behind zero bytes. *)
Lemma toProfileIdBuf_ascii
    (platform : string) (platformSpec : PlatformParameters) (profileId : JSString) :
  Object_get PLATFORMS platform = Some platformSpec ->
  ascii_text profileId ->
  Z.of_nat (length profileId) <= profileId_len platformSpec ->
  toProfileIdBuf platform profileId
  = Return (replicate (Z.to_nat (profileId_len platformSpec) - length profileId) 0
            ++ profileId).
Proof.
  intros Hspec Htext Hfits. unfold toProfileIdBuf. rewrite Hspec.
  unfold Buffer_alloc.
  destruct (Z.ltb_spec (profileId_len platformSpec) 0) as [|Hlen]; [lia|].
  simpl. unfold Buffer_write. rewrite length_replicate.
  set (n := Z.to_nat (profileId_len platformSpec)).
  set (offset := profileId_len platformSpec - Z.of_nat (length profileId)).
  destruct (Z.ltb_spec offset 0); [lia|].
  destruct (Z.ltb_spec (Z.of_nat n) offset); [lia|]. simpl.
  replace (Z.to_nat offset) with (n - length profileId)%nat by lia.
  rewrite (utf8_chars_ascii _ Htext), utf8_fit_singletons by lia.
  rewrite take_replicate, drop_replicate.
  replace (n - (n - length profileId + length profileId))%nat with 0%nat by lia.
  simpl. rewrite app_nil_r, Nat.min_l by lia. reflexivity.
Qed.

(** For ASCII text without NUL that fits the platform's width, decoding the
    encoded profileId gives the profileId back. *)
Lemma toProfileId_roundtrip_ascii
    (platform : string) (platformSpec : PlatformParameters) (profileId : JSString) :
  Object_get PLATFORMS platform = Some platformSpec ->
  ascii_text profileId ->
  Z.of_nat (length profileId) <= profileId_len platformSpec ->
  exists buf : Buffer,
    toProfileIdBuf platform profileId = Return buf
    /\ toProfileIdUTF8 buf = profileId.
Proof.
  intros Hspec Htext Hfits. eexists. split.
  - by apply toProfileIdBuf_ascii.
  - unfold toProfileIdUTF8.
    rewrite Buffer_filter_nonzero_padding by done.
    by apply TextDecoder_decode_ascii.
Qed.

(** C5 at a profileId of two two-byte characters: it holds no zero byte and
    its four bytes fit twitter's 16, but the offset is computed from the
    string's two code units, so only the first character is written and the
    round trip returns one character instead of two. *)
Theorem toProfileId_roundtrip_multibyte_loses_text :
  existsb (Z.eqb 0) (Buffer_from_utf8 [0xE9; 0xE9]) = false
  /\ utf8_byteLength [0xE9; 0xE9] = 4%nat
  /\ toProfileIdBuf "twitter" [0xE9; 0xE9]
     = Return [0; 0; 0; 0; 0; 0; 0; 0; 0; 0; 0; 0; 0; 0; 0xC3; 0xA9]
  /\ toProfileIdUTF8 [0; 0; 0; 0; 0; 0; 0; 0; 0; 0; 0; 0; 0; 0; 0xC3; 0xA9]
     = [0xE9].
Proof. repeat split; reflexivity. Qed.

(** ** toPostIdBuf *)

Ltac case_compare :=
  repeat match goal with
         | |- context [?a <=? ?b] => destruct (Z.leb_spec a b); cbn [andb orb negb]
         | |- context [?a <? ?b] => destruct (Z.ltb_spec a b); cbn [andb orb negb]
         | |- context [?a =? ?b] => destruct (Z.eqb_spec a b); cbn [andb orb negb]
         end.

Lemma digit_value_decimal (c : Z) :
  digit_value 10 c = if is_decimal_digit c then Some (c - 48) else None.
Proof.
  unfold digit_value, unhex, is_decimal_digit.
  case_compare; try reflexivity; lia.
Qed.

Lemma digits_value_not_decimal (s : JSString) (acc : Z) :
  forallb is_decimal_digit s = false -> digits_value 10 acc s = None.
Proof.
  revert acc. induction s as [|c r IH]; intros acc; simpl; [discriminate|].
  rewrite digit_value_decimal.
  destruct (is_decimal_digit c); simpl; [apply IH | reflexivity].
Qed.

Lemma drop_ws_no_white_space (s : JSString) :
  no_white_space s -> drop_ws s = s.
Proof. destruct 1 as [|c r Hc _]; simpl; [reflexivity | by rewrite Hc]. Qed.

Lemma trim_ws_no_white_space (s : JSString) :
  no_white_space s -> trim_ws s = s.
Proof.
  intros Hs. unfold trim_ws.
  rewrite (drop_ws_no_white_space s Hs), drop_ws_no_white_space.
  - apply rev_involutive.
  - by apply List.Forall_rev.
Qed.

(** A text that is not decimal digits and is none of the other literal
    forms has no BigInt value. *)
Lemma StringToBigInt_plain_text (s : JSString) :
  regex_decimal_digits s = false ->
  s <> [] ->
  no_white_space s ->
  has_sign_or_radix_prefix s = false ->
  StringToBigInt s = None.
Proof.
  intros Hregex Hne Hws Hprefix. unfold StringToBigInt.
  rewrite (trim_ws_no_white_space s Hws).
  destruct s as [|c r]; [done|]. clear Hne.
  assert (Hdigits : parse_digits 10 (c :: r) = None).
  { unfold parse_digits. by apply digits_value_not_decimal. }
  simpl in Hprefix.
  destruct (Z.eqb_spec c 43); [done|].
  destruct (Z.eqb_spec c 45); [done|].
  destruct (Z.eqb_spec c 48) as [->|]; [|exact Hdigits].
  destruct r as [|p r']; [discriminate Hregex|].
  simpl in Hprefix.
  destruct (p =? 120), (p =? 88), (p =? 111), (p =? 79), (p =? 98), (p =? 66);
    try discriminate Hprefix; exact Hdigits.
Qed.

Lemma PLATFORMS_supported (platform : string) (platformSpec : PlatformParameters) :
  Object_get PLATFORMS platform = Some platformSpec ->
  postId_type platformSpec = BigIntType
  /\ postId_regex platformSpec = regex_decimal_digits
  /\ profileId_len platformSpec = 16.
Proof.
  unfold PLATFORMS. simpl. destruct (String.eqb platform "twitter"); [|discriminate].
  intros [= <-]. done.
Qed.

Section PostIdFacts.

Variable Number_toString16 : JSString -> JSString.

(** C2, as the code has it: [toPostIdBuf] never consults the platform's
    regex.  For a supported platform, a postId that fails the regex and is
    none of the other texts [BigInt] reads (it is not empty, holds no white
    space and opens with neither a sign nor 0x, 0o or 0b) makes it throw a
    SyntaxError: a thrown exception, with no value returned. *)
Theorem toPostIdBuf_throws_on_plain_text
    (platform : string) (platformSpec : PlatformParameters) (postId : JSString) :
  Object_get PLATFORMS platform = Some platformSpec ->
  postId_regex platformSpec postId = false ->
  postId <> [] ->
  no_white_space postId ->
  has_sign_or_radix_prefix postId = false ->
  toPostIdBuf Number_toString16 platform postId = Throw SyntaxError.
Proof.
  intros Hspec Hregex Hne Hws Hprefix. unfold toPostIdBuf. rewrite Hspec.
  destruct (PLATFORMS_supported _ _ Hspec) as (-> & Hre & _).
  rewrite Hre in Hregex. unfold BigInt.
  by rewrite StringToBigInt_plain_text.
Qed.

End PostIdFacts.

Lemma toPostIdBuf_throws_on_plain_text_witness :
  regex_decimal_digits (str "12a") = false
  /\ forall Number_toString16,
       toPostIdBuf Number_toString16 "twitter" (str "12a") = Throw SyntaxError.
Proof.
  split; [reflexivity|]. intros Number_toString16.
  apply (toPostIdBuf_throws_on_plain_text Number_toString16 "twitter" _ (str "12a")
           eq_refl eq_refl).
  - discriminate.
  - repeat constructor.
  - reflexivity.
Defined.

(** C2 as stated fails: the text 0x1f does not match twitter's regex, and
    [toPostIdBuf] returns the one-byte buffer 1f for it; the empty text
    matches neither revision of the regex and yields the empty buffer; and
    where the code does fail, as on abc, it throws. *)
Lemma toPostIdBuf_returns_for_unmatched_postId :
  regex_decimal_digits (str "0x1f") = false
  /\ (forall Number_toString16,
        toPostIdBuf Number_toString16 "twitter" (str "0x1f") = Return [0x1f])
  /\ regex_decimal_digits (str "") = false
  /\ regex_some_digit (str "") = false
  /\ (forall Number_toString16,
        toPostIdBuf Number_toString16 "twitter" (str "") = Return [])
  /\ regex_decimal_digits (str "abc") = false
  /\ (forall Number_toString16,
        toPostIdBuf Number_toString16 "twitter" (str "abc") = Throw SyntaxError).
Proof. repeat split. Qed.

(** *** Hexadecimal text of an even length *)

Lemma unhex_hex_digit (d : Z) : 0 <= d < 16 -> unhex (hex_digit d) = Some d.
Proof.
  intros Hd. unfold hex_digit.
  destruct (Z.ltb_spec d 10); unfold unhex; case_compare; try lia; f_equal; lia.
Qed.

(** With enough fuel, [hex_digits] writes the digits of [n], most
    significant first and with no zero in front, before [acc]. *)
Lemma hex_digits_spec (fuel : nat) (n : Z) (acc : JSString) :
  0 <= n < 16 ^ Z.of_nat fuel ->
  exists ds : list Z,
    hex_digits fuel n acc = List.map hex_digit ds ++ acc
    /\ Forall (fun d => 0 <= d < 16) ds
    /\ hex_value ds = n
    /\ (0 < n -> exists d r, ds = d :: r /\ 0 < d).
Proof.
  revert n acc. induction fuel as [|fuel IH]; intros n acc Hn.
  - exists []. simpl in Hn.
    split; [reflexivity | split; [constructor | split; [cbn; lia | lia]]].
  - cbn [hex_digits]. destruct (Z.ltb_spec n 16) as [Hsmall|Hbig].
    + exists [n]. rewrite Z.mod_small by lia.
      split; [reflexivity|].
      split; [constructor; [lia | constructor]|].
      split; [reflexivity|].
      intros Hpos. by exists n, [].
    + assert (Hquot : 0 <= n / 16 < 16 ^ Z.of_nat fuel).
      { split; [apply Z.div_pos; lia|].
        apply Z.div_lt_upper_bound; [lia|].
        rewrite Nat2Z.inj_succ, Z.pow_succ_r in Hn; lia. }
      destruct (IH (n / 16) (hex_digit (n mod 16) :: acc) Hquot)
        as (ds & Hrun & Hds & Hval & Hhead).
      exists (ds ++ [n mod 16]). split; [|split; [|split]].
      * rewrite Hrun, List.map_app, <- app_assoc. reflexivity.
      * apply Forall_app. split; [exact Hds|].
        constructor; [apply Z.mod_pos_bound; lia | constructor].
      * unfold hex_value in *. rewrite fold_left_app, Hval. simpl.
        pose proof (Z.div_mod n 16). lia.
      * intros _. destruct Hhead as (d & r & -> & Hd).
        { apply Z.div_str_pos. lia. }
        exists d, (r ++ [n mod 16]). by split.
Qed.

(** Text of an even number of hexadecimal digits reads back as bytes that
    denote the same integer. *)
Lemma Buffer_from_hex_pairs (k : nat) (ds : list Z) :
  length ds = (2 * k)%nat ->
  Forall (fun d => 0 <= d < 16) ds ->
  Forall (fun b => 0 <= b < 256) (Buffer_from_hex (List.map hex_digit ds))
  /\ forall acc,
       fold_left (fun acc b => acc * 256 + b)
         (Buffer_from_hex (List.map hex_digit ds)) acc
       = fold_left (fun acc d => acc * 16 + d) ds acc.
Proof.
  revert ds. induction k as [|k IH]; intros ds Hlen Hds.
  - destruct ds; [|discriminate]. split; [constructor | reflexivity].
  - destruct ds as [|a [|b r]]; try (simpl in Hlen; lia).
    apply Forall_cons in Hds as [Ha Hds].
    apply Forall_cons in Hds as [Hb Hr].
    destruct (IH r) as [Hbytes Hval]; [simpl in Hlen; lia | exact Hr |].
    cbn [List.map Buffer_from_hex].
    rewrite (unhex_hex_digit a Ha), (unhex_hex_digit b Hb).
    split.
    + constructor; [lia | exact Hbytes].
    + intros acc. cbn [fold_left]. rewrite Hval. f_equal. lia.
Qed.

Lemma decimal_digit_no_white_space (s : JSString) :
  forallb is_decimal_digit s = true -> no_white_space s.
Proof.
  intros Hs. apply List.Forall_forall. intros c Hc.
  pose proof (proj1 (forallb_forall _ _) Hs c Hc) as Hdigit.
  unfold is_decimal_digit in Hdigit. apply andb_true_iff in Hdigit as [Hlo Hhi].
  apply Z.leb_le in Hlo. apply Z.leb_le in Hhi.
  unfold is_StrWhiteSpaceChar. case_compare; try reflexivity; lia.
Qed.

Lemma digits_value_decimal (s : JSString) (acc : Z) :
  forallb is_decimal_digit s = true -> 0 <= acc ->
  exists v, digits_value 10 acc s = Some v /\ 0 <= v.
Proof.
  revert acc. induction s as [|c r IH]; intros acc Hs Hacc; simpl.
  - by exists acc.
  - simpl in Hs. apply andb_true_iff in Hs as [Hc Hr].
    rewrite digit_value_decimal, Hc. apply IH; [exact Hr|].
    unfold is_decimal_digit in Hc. apply andb_true_iff in Hc as [Hlo _].
    apply Z.leb_le in Hlo. lia.
Qed.

(** A postId that matches twitter's regex has a BigInt value, and it is not
    negative. *)
Lemma BigInt_decimal_digits (s : JSString) :
  regex_decimal_digits s = true ->
  exists v, BigInt s = Return v /\ 0 <= v.
Proof.
  intros Hregex. destruct s as [|c r]; [discriminate|].
  unfold regex_decimal_digits in Hregex.
  destruct (digits_value_decimal (c :: r) 0 Hregex) as (v & Hv & Hpos); [lia|].
  exists v. split; [|exact Hpos].
  unfold BigInt, StringToBigInt.
  rewrite (trim_ws_no_white_space _ (decimal_digit_no_white_space _ Hregex)).
  assert (Hparse : parse_digits 10 (c :: r) = Some v) by exact Hv.
  simpl in Hregex. apply andb_true_iff in Hregex as [Hc Hr].
  unfold is_decimal_digit in Hc. apply andb_true_iff in Hc as [Hlo Hhi].
  apply Z.leb_le in Hlo. apply Z.leb_le in Hhi.
  destruct (Z.eqb_spec c 43); [lia|].
  destruct (Z.eqb_spec c 45); [lia|].
  destruct (Z.eqb_spec c 48) as [->|]; [|by rewrite Hparse].
  destruct r as [|p r'].
  - simpl in Hv. injection Hv as <-. reflexivity.
  - simpl in Hr. apply andb_true_iff in Hr as [Hp _].
    unfold is_decimal_digit in Hp. apply andb_true_iff in Hp as [Hplo Hphi].
    apply Z.leb_le in Hplo. apply Z.leb_le in Hphi.
    destruct (Z.eqb_spec p 120); [lia|]. destruct (Z.eqb_spec p 88); [lia|].
    destruct (Z.eqb_spec p 111); [lia|]. destruct (Z.eqb_spec p 79); [lia|].
    destruct (Z.eqb_spec p 98); [lia|]. destruct (Z.eqb_spec p 66); [lia|].
    cbn [orb]. by rewrite Hparse.
Qed.

Lemma BigInt_toString16_spec (v : Z) :
  0 < v ->
  exists (d : Z) (r : list Z),
    BigInt_toString16 v = List.map hex_digit (d :: r)
    /\ Forall (fun d => 0 <= d < 16) (d :: r)
    /\ hex_value (d :: r) = v
    /\ 0 < d.
Proof.
  intros Hv. unfold BigInt_toString16.
  destruct (Z.ltb_spec v 0); [lia|]. rewrite Z.abs_eq by lia.
  destruct (hex_digits_spec (S (Z.to_nat (Z.log2 v))) v [])
    as (ds & Hrun & Hds & Hval & Hhead).
  { split; [lia|].
    rewrite Nat2Z.inj_succ, Z2Nat.id by apply Z.log2_nonneg.
    pose proof (Z.log2_spec v Hv) as [_ Hlt].
    eapply Z.lt_le_trans; [exact Hlt|].
    apply Z.pow_le_mono_l. lia. }
  destruct (Hhead Hv) as (d & r & -> & Hd).
  exists d, r. rewrite app_nil_r in Hrun. done.
Qed.

Section PostIdEvenLength.

Variable Number_toString16 : JSString -> JSString.

(** Where the code agrees with C3: for a supported platform and a postId of
    decimal digits whose positive value has an even number of hexadecimal
    digits, [toPostIdBuf] returns the minimal big-endian bytes of the
    value. *)
Lemma toPostIdBuf_even_hex_length
    (platform : string) (platformSpec : PlatformParameters) (postId : JSString) :
  Object_get PLATFORMS platform = Some platformSpec ->
  regex_decimal_digits postId = true ->
  exists v : Z,
    BigInt postId = Return v
    /\ (0 < v ->
        Nat.Even (length (BigInt_toString16 v)) ->
        exists buf : Buffer,
          toPostIdBuf Number_toString16 platform postId = Return buf
          /\ minimal_big_endian v buf).
Proof.
  intros Hspec Hregex.
  destruct (BigInt_decimal_digits postId Hregex) as (v & Hbig & _).
  exists v. split; [exact Hbig|]. intros Hv [k Heven].
  destruct (BigInt_toString16_spec v Hv) as (d & r & Hhex & Hds & Hval & Hd).
  unfold toPostIdBuf. rewrite Hspec.
  destruct (PLATFORMS_supported _ _ Hspec) as (-> & _ & _).
  rewrite Hbig. simpl mbind. rewrite Hhex in *.
  rewrite length_map in Heven.
  destruct (Buffer_from_hex_pairs k (d :: r) Heven Hds) as [Hbytes Hsame].
  eexists. split; [reflexivity|]. split; [exact Hbytes|]. split.
  - unfold big_endian_value. rewrite Hsame. exact Hval.
  - destruct r as [|d' r]; [simpl in Heven; lia|].
    apply Forall_cons in Hds as [Hd0 Hds].
    apply Forall_cons in Hds as [Hd1 _].
    cbn [List.map Buffer_from_hex].
    rewrite (unhex_hex_digit d Hd0), (unhex_hex_digit d' Hd1).
    intros b rest [= <- _]. lia.
Qed.

End PostIdEvenLength.

(** The postId 1453489038468431875 has sixteen hexadecimal digits and is
    encoded in full. *)
Example toPostIdBuf_sixteen_digits :
  forall Number_toString16,
    toPostIdBuf Number_toString16 "twitter" (str "1453489038468431875")
    = Return [0x14; 0x2b; 0xd4; 0x94; 0x5e; 0xd5; 0xc0; 0x03]
    /\ big_endian_value [0x14; 0x2b; 0xd4; 0x94; 0x5e; 0xd5; 0xc0; 0x03]
       = 1453489038468431875.
Proof. intros Number_toString16. split; reflexivity. Qed.

(** C3 at postIds whose value has an odd number of hexadecimal digits: 256
    is 100 in hexadecimal, the last digit is dropped when the text is read
    as bytes, and the buffer is the single byte 10, which denotes 16.  The
    same happens to 1000000000000000000 (de0b6b3a7640000): seven bytes come
    back, denoting a sixteenth of the postId. *)
Theorem toPostIdBuf_odd_hex_length_drops_digit :
  regex_decimal_digits (str "256") = true
  /\ BigInt (str "256") = Return 256
  /\ BigInt_toString16 256 = str "100"
  /\ (forall Number_toString16,
        toPostIdBuf Number_toString16 "twitter" (str "256") = Return [0x10])
  /\ big_endian_value [0x10] = 16
  /\ minimal_big_endian 256 [1; 0]
  /\ regex_decimal_digits (str "1000000000000000000") = true
  /\ (forall Number_toString16,
        toPostIdBuf Number_toString16 "twitter" (str "1000000000000000000")
        = Return [0xde; 0x0b; 0x6b; 0x3a; 0x76; 0x40; 0x00])
  /\ big_endian_value [0xde; 0x0b; 0x6b; 0x3a; 0x76; 0x40; 0x00]
     = 62500000000000000.
Proof.
  repeat split; try (intros; congruence).
  all: repeat constructor; lia.
Qed.

(** ** Registries *)

Lemma Map_get_In {V} (m : JSMap V) (k : Z) (v : V) :
  Map_get k m = Some v -> In (k, v) m.
Proof.
  induction m as [|[k' v'] r IH]; simpl; [discriminate|].
  destruct (Z.eqb_spec k k') as [->|_].
  - intros [= ->]. by left.
  - intros Hget. right. by apply IH.
Qed.

Lemma Map_get_absent {V} (m : JSMap V) (k : Z) :
  (forall v, ~ In (k, v) m) -> Map_get k m = None.
Proof.
  intros Habsent. destruct (Map_get k m) as [v|] eqn:Hget; [|reflexivity].
  destruct (Habsent v). by apply Map_get_In.
Qed.

(** The loop of [toPlatformBuf], over any registry of byte codes: a label
    that some code maps to is found, and the code found maps back to it. *)
Lemma toPlatformBuf_loop_registered
    (entries : JSMap string) (platform : string) (code : Z) :
  NoDup entries.*1 ->
  Forall (fun entry => 0 <= entry.1 < 256) entries ->
  Map_get code entries = Some platform ->
  exists byte : Z,
    toPlatformBuf_loop entries platform = Some [byte]
    /\ Map_get byte entries = Some platform.
Proof.
  induction entries as [|[k name] r IH]; simpl; [discriminate|].
  intros Hkeys Hbytes Hget.
  apply NoDup_cons in Hkeys as [Hfresh Hkeys].
  apply Forall_cons in Hbytes as [Hk Hbytes]. simpl in Hk.
  destruct (String.eqb_spec name platform) as [->|Hname].
  - exists k. rewrite Z.eqb_refl. split; [|reflexivity].
    unfold Buffer_from_array. simpl. do 2 f_equal.
    change 255 with (Z.ones 8). rewrite Z.land_ones by lia.
    apply Z.mod_small. lia.
  - destruct (Z.eqb_spec code k) as [->|Hcode]; [congruence|].
    destruct (IH Hkeys Hbytes Hget) as (byte & Hloop & Hback).
    exists byte. split; [exact Hloop|].
    destruct (Z.eqb_spec byte k) as [->|_]; [|exact Hback].
    destruct Hfresh. apply list_elem_of_fmap.
    exists (k, platform). split; [reflexivity|].
    apply list_elem_of_In. by apply Map_get_In.
Qed.

(** C6: for every label of the platform registry, [toPlatformBuf] returns
    the one byte that is the label's only code in the registry, and
    [toPlatformUTF8] maps that buffer back to the label. *)
Theorem toPlatform_roundtrip (platform : string) (code : Z) :
  Map_get code SCRIPT_CHUNK_PLATFORM = Some platform ->
  toPlatformBuf platform = Some [code]
  /\ toPlatformUTF8 [code] = Return (Some platform)
  /\ (forall code', Map_get code' SCRIPT_CHUNK_PLATFORM = Some platform ->
                    code' = code).
Proof.
  intros Hget.
  assert (Hcode : code = 1 /\ platform = "twitter").
  { unfold SCRIPT_CHUNK_PLATFORM in Hget. simpl in Hget.
    destruct (Z.eqb_spec code 1); [|discriminate]. by injection Hget. }
  destruct Hcode as [-> ->]. repeat split.
  intros code' Hget'. unfold SCRIPT_CHUNK_PLATFORM in Hget'. simpl in Hget'.
  destruct (Z.eqb_spec code' 1); [done | discriminate].
Qed.

Lemma toPlatform_roundtrip_witness :
  toPlatformBuf "twitter" = Some [1]
  /\ toPlatformUTF8 [1] = Return (Some "twitter")
  /\ (forall code', Map_get code' SCRIPT_CHUNK_PLATFORM = Some "twitter" ->
                    code' = 1).
Proof. exact (toPlatform_roundtrip "twitter" 1 eq_refl). Defined.

(** C4: for each sentiment, [toSentimentOpCode] names the opcode whose byte
    is the sentiment's code in the registry (0x51 for positive, 0x00 for
    negative), and [toSentimentUTF8] maps that byte back to the sentiment. *)
Theorem toSentiment_roundtrip (sentiment : Sentiment) :
  exists (name : string) (code : Z),
    toSentimentOpCode (Sentiment_UTF8 sentiment) = Some name
    /\ Opcode_byte name = Some code
    /\ code = match sentiment with Positive => 0x51 | Negative => 0x00 end
    /\ Map_get code SCRIPT_CHUNK_SENTIMENT = Some (Sentiment_UTF8 sentiment)
    /\ toSentimentUTF8 [code] = Return (Some (Sentiment_UTF8 sentiment)).
Proof.
  destruct sentiment.
  - exists "OP_1", 0x51. repeat split.
  - exists "OP_0", 0x00. repeat split.
Qed.

(** C7: a one-byte buffer whose byte has no entry in the registry decodes
    to an absent result, returned and not thrown, by [toPlatformUTF8] and by
    [toSentimentUTF8]. *)
Theorem unknown_code_is_absent (byte : Z) :
  ((forall label, ~ In (byte, label) SCRIPT_CHUNK_PLATFORM) ->
   toPlatformUTF8 [byte] = Return None)
  /\ ((forall label, ~ In (byte, label) SCRIPT_CHUNK_SENTIMENT) ->
      toSentimentUTF8 [byte] = Return None).
Proof.
  split; intros Habsent.
  - change (toPlatformUTF8 [byte])
      with (Return (Map_get byte SCRIPT_CHUNK_PLATFORM)).
    by rewrite Map_get_absent.
  - change (toSentimentUTF8 [byte])
      with (Return (Map_get byte SCRIPT_CHUNK_SENTIMENT)).
    by rewrite Map_get_absent.
Qed.

Lemma unknown_code_is_absent_witness :
  toPlatformUTF8 [0x02] = Return None /\ toSentimentUTF8 [0x02] = Return None.
Proof.
  destruct (unknown_code_is_absent 0x02) as [Hplatform Hsentiment].
  split; [apply Hplatform | apply Hsentiment];
    intros label Hin; simpl in Hin; intuition congruence.
Defined.

(** C8: the table of required chunks holds the fixed positions of the
    grammar: lokad at offset 2, four bytes, with the one code 0x52414E4B
    (the bytes of RANK) for RANK; sentiment at offset 6, one byte, 0x51
    positive and 0x00 negative; platform at offset 8, one byte, 0x01
    twitter; profileId at offset 10 with its length left to the platform,
    16 for twitter; and the required length is 10. *)
Theorem required_chunks_table :
  Object_get RANK_SCRIPT_CHUNKS_REQUIRED "lokad"
  = Some {| chunk_offset := Some 2; chunk_len := Some 4;
            chunk_map := Some [(0x52414E4B, "RANK")] |}
  /\ big_endian_value (str "RANK") = 0x52414E4B
  /\ Object_get RANK_SCRIPT_CHUNKS_REQUIRED "sentiment"
     = Some {| chunk_offset := Some 6; chunk_len := Some 1;
               chunk_map := Some [(0x51, "positive"); (0x00, "negative")] |}
  /\ Object_get RANK_SCRIPT_CHUNKS_REQUIRED "platform"
     = Some {| chunk_offset := Some 8; chunk_len := Some 1;
               chunk_map := Some [(0x01, "twitter")] |}
  /\ Object_get RANK_SCRIPT_CHUNKS_REQUIRED "profileId"
     = Some {| chunk_offset := Some 10; chunk_len := None; chunk_map := None |}
  /\ profileId_len <$> Object_get PLATFORMS "twitter" = Some 16
  /\ List.map fst RANK_SCRIPT_CHUNKS_REQUIRED
     = ["lokad"; "sentiment"; "platform"; "profileId"]
  /\ RANK_SCRIPT_REQUIRED_LENGTH = 10.
Proof. repeat split. Qed.

(** ** The aggregator's invariant *)

Lemma votes_match_create (platform id : string) (tx : RankTransaction) :
  votes_match (RankTarget_create platform id tx).
Proof. unfold votes_match, RankTarget_create. by destruct (tx_sentiment tx). Qed.

Lemma votes_match_append (tx : RankTransaction) (t : RankTarget) :
  votes_match t -> votes_match (RankTarget_append tx t).
Proof.
  unfold votes_match, RankTarget_append. intros Ht.
  case_decide; [exact Ht|].
  destruct (tx_sentiment tx); simpl; rewrite length_app; simpl; lia.
Qed.

Lemma votes_match_track (platform id : string) (tx : RankTransaction)
    (o : option RankTarget) (t : RankTarget) :
  (forall t0, o = Some t0 -> votes_match t0) ->
  track platform id tx o = Some t ->
  votes_match t.
Proof.
  destruct o as [t0|]; simpl; intros Ho [= <-].
  - apply votes_match_append. by apply Ho.
  - apply votes_match_create.
Qed.

(** Eviction lowers the counters by exactly the number of transactions it
    removes. *)
Lemma evict_ranks_count (evicted : gset string) (l : list RankTransaction)
    (positive negative : Z) :
  let '(r, p, n) := evict_ranks evicted l positive negative in
  p + n - Z.of_nat (length r) = positive + negative - Z.of_nat (length l).
Proof.
  induction l as [|tx l IH]; simpl; [reflexivity|].
  destruct (evict_ranks evicted l positive negative) as [[r p] n].
  case_decide.
  - destruct (tx_sentiment tx); lia.
  - simpl. lia.
Qed.

Lemma votes_match_rollback (evicted : gset string) (t t' : RankTarget) :
  votes_match t -> RankTarget_rollback evicted t = Some t' -> votes_match t'.
Proof.
  unfold votes_match, RankTarget_rollback. intros Ht.
  pose proof (evict_ranks_count evicted (ranks t) (votesPositive t)
                (votesNegative t)) as Hcount.
  destruct (evict_ranks evicted (ranks t) (votesPositive t) (votesNegative t))
    as [[r p] n].
  destruct r as [|tx r]; [discriminate|].
  intros [= <-]. simpl in *. lia.
Qed.

Lemma ingest_consistent (tx : RankTransaction) (st : Aggregator) :
  Aggregator_consistent st -> Aggregator_consistent (ingest tx st).
Proof.
  intros [Hprofiles Hposts]. unfold ingest.
  destruct (tx_postId tx) as [postId|]; split; simpl; try done.
  - intros key t [[_ Htrack]|[_ Hold]]%lookup_partial_alter_Some.
    + eapply votes_match_track; [|exact Htrack]. intros t0 Ht0.
      by apply (Hposts _ _ Ht0).
    + by apply (Hposts _ _ Hold).
  - intros key t [[_ Htrack]|[_ Hold]]%lookup_partial_alter_Some.
    + eapply votes_match_track; [|exact Htrack]. intros t0 Ht0.
      by apply (Hprofiles _ _ Ht0).
    + by apply (Hprofiles _ _ Hold).
Qed.

Lemma rollback_consistent (evicted : gset string) (st : Aggregator) :
  Aggregator_consistent st -> Aggregator_consistent (rollback evicted st).
Proof.
  intros [Hprofiles Hposts].
  split; simpl; intros key t (t0 & Hroll & Hold)%lookup_omap_Some.
  - eapply votes_match_rollback; [|exact Hroll]. by apply (Hprofiles _ _ Hold).
  - eapply votes_match_rollback; [|exact Hroll]. by apply (Hposts _ _ Hold).
Qed.

Lemma run_consistent (ops : list AggregatorOp) (st : Aggregator) :
  Aggregator_consistent st -> Aggregator_consistent (run ops st).
Proof.
  revert st. induction ops as [|op ops IH]; intros st Hst; simpl; [exact Hst|].
  apply IH. destruct op; [by apply ingest_consistent | by apply rollback_consistent].
Qed.

(** C9: after any sequence of ingestions and rollbacks, every aggregate the
    aggregator holds, profile or post, has [votesPositive + votesNegative]
    equal to the length of its [ranks]. *)
Theorem votes_equal_ranks_length
    (ops : list AggregatorOp) (key : string * string) (t : RankTarget) :
  profiles (run ops Aggregator_empty) !! key = Some t
  \/ posts (run ops Aggregator_empty) !! key = Some t ->
  votesPositive t + votesNegative t = Z.of_nat (length (ranks t)).
Proof.
  assert (Hrun : Aggregator_consistent (run ops Aggregator_empty)).
  { apply run_consistent. split; apply map_Forall_empty. }
  destruct Hrun as [Hprofiles Hposts].
  intros [Hlookup|Hlookup].
  - exact (Hprofiles _ _ Hlookup).
  - exact (Hposts _ _ Hlookup).
Qed.

Lemma votes_equal_ranks_length_witness :
  exists t : RankTarget,
    profiles (run reorg_scenario Aggregator_empty) !! ("twitter", "abc") = Some t
    /\ votesPositive t = 2
    /\ votesNegative t = 0
    /\ ranking t = 2
    /\ votesPositive t + votesNegative t = Z.of_nat (length (ranks t)).
Proof.
  eexists. split; [vm_compute; reflexivity|].
  do 3 (split; [reflexivity|]).
  apply (votes_equal_ranks_length reorg_scenario ("twitter", "abc")).
  left. vm_compute. reflexivity.
Defined.

(** * Further properties of the codec *)

(** ** toProfileIdBuf: when it returns and what it writes *)

Lemma toProfileIdBuf_unfold
    (platform : string) (platformSpec : PlatformParameters) (profileId : JSString) :
  Object_get PLATFORMS platform = Some platformSpec ->
  toProfileIdBuf platform profileId
  = Buffer_write (replicate 16 0) profileId (16 - Z.of_nat (length profileId)).
Proof.
  intros Hspec. unfold toProfileIdBuf. rewrite Hspec.
  destruct (PLATFORMS_supported _ _ Hspec) as (_ & _ & ->). reflexivity.
Qed.

(** What fits is a run of whole characters from the front of the string. *)
Lemma utf8_fit_whole_chars (chars : list (list Z)) (room : nat) :
  exists n : nat, utf8_fit chars room = concat (take n chars).
Proof.
  revert room. induction chars as [|c r IH]; intros room; simpl.
  - by exists 0%nat.
  - destruct (length c <=? room)%nat.
    + destruct (IH (room - length c)%nat) as [n ->]. by exists (S n).
    + by exists 0%nat.
Qed.

(** [toProfileIdBuf] returns exactly when the profileId has no more UTF-16
    code units than the platform's [profileId.len]. *)
Theorem toProfileIdBuf_returns_iff
    (platform : string) (platformSpec : PlatformParameters) (profileId : JSString) :
  Object_get PLATFORMS platform = Some platformSpec ->
  (exists buf : Buffer, toProfileIdBuf platform profileId = Return buf)
  <-> Z.of_nat (length profileId) <= profileId_len platformSpec.
Proof.
  intros Hspec. rewrite (toProfileIdBuf_unfold _ _ _ Hspec).
  destruct (PLATFORMS_supported _ _ Hspec) as (_ & _ & ->).
  unfold Buffer_write. rewrite length_replicate.
  destruct (Z.ltb_spec (16 - Z.of_nat (length profileId)) 0) as [Hneg|Hok]; simpl.
  - split; [intros [buf Hbuf]; discriminate | lia].
  - destruct (Z.ltb_spec (Z.of_nat 16) (16 - Z.of_nat (length profileId))); [lia|].
    split; [lia | eauto].
Qed.

Lemma toProfileIdBuf_returns_iff_witness :
  (exists buf : Buffer, toProfileIdBuf "twitter" (str "elonmusk") = Return buf)
  <-> Z.of_nat (length (str "elonmusk")) <= 16.
Proof. exact (toProfileIdBuf_returns_iff "twitter" _ (str "elonmusk") eq_refl). Defined.

(** Whatever the profileId holds, the buffer [toProfileIdBuf] returns is
    zero bytes up to the offset, then the UTF-8 bytes of some number of
    whole characters from the front of the profileId, then zero bytes: no
    character is ever written in part, and nothing else is written. *)
Theorem toProfileIdBuf_layout
    (platform : string) (platformSpec : PlatformParameters)
    (profileId : JSString) (buf : Buffer) :
  Object_get PLATFORMS platform = Some platformSpec ->
  toProfileIdBuf platform profileId = Return buf ->
  exists n k : nat,
    buf = replicate (Z.to_nat (profileId_len platformSpec) - length profileId) 0
          ++ concat (take n (utf8_chars profileId))
          ++ replicate k 0
    /\ (length (concat (take n (utf8_chars profileId))) <= length profileId)%nat.
Proof.
  intros Hspec. rewrite (toProfileIdBuf_unfold _ _ _ Hspec).
  destruct (PLATFORMS_supported _ _ Hspec) as (_ & _ & ->).
  unfold Buffer_write. rewrite length_replicate.
  destruct (Z.ltb_spec (16 - Z.of_nat (length profileId)) 0) as [Hneg|Hok];
    [discriminate|].
  destruct (Z.ltb_spec (Z.of_nat 16) (16 - Z.of_nat (length profileId))); [lia|].
  simpl orb. cbv iota. intros [= <-].
  replace (Z.to_nat (16 - Z.of_nat (length profileId)))
    with (16 - length profileId)%nat by lia.
  replace (16 - (16 - length profileId))%nat with (length profileId) by lia.
  pose proof (utf8_fit_length (utf8_chars profileId) (length profileId)) as Hfit.
  destruct (utf8_fit_whole_chars (utf8_chars profileId) (length profileId))
    as [n Hn].
  rewrite Hn in *. exists n. eexists. split; [|exact Hfit].
  change [0; 0; 0; 0; 0; 0; 0; 0; 0; 0; 0; 0; 0; 0; 0; 0] with (replicate 16 0).
  rewrite take_replicate, drop_replicate, Nat.min_l by lia.
  change (Z.to_nat 16) with 16%nat. reflexivity.
Qed.

Lemma toProfileIdBuf_layout_witness :
  exists n k : nat,
    [0; 0; 0; 0; 0; 0; 0; 0xC3; 0xA9; 0xC3; 0xA9; 0xC3; 0xA9; 0xC3; 0xA9; 0]
    = replicate (Z.to_nat 16 - length (replicate 9 0xE9)) 0
      ++ concat (take n (utf8_chars (replicate 9 0xE9)))
      ++ replicate k 0
    /\ (length (concat (take n (utf8_chars (replicate 9 0xE9%Z))))
        <= length (replicate 9 0xE9%Z))%nat.
Proof.
  exact (toProfileIdBuf_layout "twitter" _ (replicate 9 0xE9) _ eq_refl eq_refl).
Defined.

Lemma toProfileId_roundtrip_ascii_witness :
  exists buf : Buffer,
    toProfileIdBuf "twitter" (str "elonmusk") = Return buf
    /\ toProfileIdUTF8 buf = str "elonmusk".
Proof.
  apply (toProfileId_roundtrip_ascii "twitter" _ (str "elonmusk") eq_refl).
  - unfold ascii_text, str. simpl. repeat (constructor; [lia|]). constructor.
  - simpl. lia.
Defined.

(** ASCII text that fits is written right aligned: every byte in front of it
    is zero and the text occupies the last bytes of the buffer, one byte for
    each character. *)
Theorem toProfileIdBuf_ascii_right_aligned
    (platform : string) (platformSpec : PlatformParameters) (profileId : JSString) :
  Object_get PLATFORMS platform = Some platformSpec ->
  ascii_text profileId ->
  Z.of_nat (length profileId) <= profileId_len platformSpec ->
  exists buf : Buffer,
    toProfileIdBuf platform profileId = Return buf
    /\ (forall i : nat,
          (i < Z.to_nat (profileId_len platformSpec) - length profileId)%nat ->
          buf !! i = Some 0)
    /\ (forall i : nat,
          (i < length profileId)%nat ->
          buf !! (Z.to_nat (profileId_len platformSpec) - length profileId + i)%nat
          = profileId !! i).
Proof.
  intros Hspec Htext Hfits.
  rewrite (toProfileIdBuf_ascii _ _ _ Hspec Htext Hfits).
  eexists. split; [reflexivity|]. unfold Buffer, JSString in *. split.
  - intros i Hi. rewrite lookup_app_l by (rewrite length_replicate; lia).
    by apply lookup_replicate_2.
  - intros i Hi. rewrite lookup_app_r by (rewrite length_replicate; lia).
    rewrite length_replicate. f_equal. lia.
Qed.

Lemma toProfileIdBuf_ascii_right_aligned_witness :
  exists buf : Buffer,
    toProfileIdBuf "twitter" (str "elonmusk") = Return buf
    /\ (forall i : nat,
          (i < Z.to_nat 16 - length (str "elonmusk"))%nat -> buf !! i = Some 0)
    /\ (forall i : nat,
          (i < length (str "elonmusk"))%nat ->
          buf !! (Z.to_nat 16 - length (str "elonmusk") + i)%nat
          = str "elonmusk" !! i).
Proof.
  apply (toProfileIdBuf_ascii_right_aligned "twitter" _ (str "elonmusk") eq_refl).
  - unfold ascii_text, str. simpl. repeat (constructor; [lia|]). constructor.
  - simpl. lia.
Defined.

(** ** toProfileIdUTF8: zero bytes are lost wherever they stand *)

(** [toProfileIdUTF8] drops every zero byte, not only the padding in front:
    a buffer with a zero byte anywhere decodes like the buffer without it. *)
Theorem toProfileIdUTF8_ignores_zero_bytes (front back : Buffer) :
  toProfileIdUTF8 (front ++ 0 :: back) = toProfileIdUTF8 (front ++ back).
Proof.
  unfold toProfileIdUTF8, Buffer_filter_nonzero.
  by rewrite !List.filter_app.
Qed.

(** ** Unsupported platforms *)

(** For a platform name that [PLATFORMS] has no entry for, both encoders
    throw a TypeError, whatever the identifier. *)
Theorem encoders_throw_on_unsupported_platform
    (Number_toString16 : JSString -> JSString)
    (platform : string) (profileId postId : JSString) :
  platform <> "twitter" ->
  toProfileIdBuf platform profileId = Throw TypeError
  /\ toPostIdBuf Number_toString16 platform postId = Throw TypeError.
Proof.
  intros Hplatform. unfold toProfileIdBuf, toPostIdBuf, PLATFORMS. simpl.
  destruct (String.eqb_spec platform "twitter"); [done|]. done.
Qed.

Lemma encoders_throw_on_unsupported_platform_witness :
  toProfileIdBuf "facebook" (str "zuck") = Throw TypeError
  /\ toPostIdBuf (fun s => s) "facebook" (str "1") = Throw TypeError.
Proof.
  apply (encoders_throw_on_unsupported_platform (fun s => s) "facebook").
  discriminate.
Defined.

(** ** toPostIdBuf on decimal postIds *)

Lemma StringToBigInt_decimal (s : JSString) :
  regex_decimal_digits s = true ->
  StringToBigInt s = digits_value 10 0 s.
Proof.
  intros Hregex. destruct s as [|c r]; [discriminate|].
  unfold regex_decimal_digits in Hregex. unfold StringToBigInt.
  rewrite (trim_ws_no_white_space _ (decimal_digit_no_white_space _ Hregex)).
  change (parse_digits 10 (c :: r)) with (digits_value 10 0 (c :: r)).
  simpl in Hregex. apply andb_true_iff in Hregex as [Hc Hr].
  unfold is_decimal_digit in Hc. apply andb_true_iff in Hc as [Hlo Hhi].
  apply Z.leb_le in Hlo. apply Z.leb_le in Hhi.
  destruct (Z.eqb_spec c 43); [lia|].
  destruct (Z.eqb_spec c 45); [lia|].
  destruct (Z.eqb_spec c 48) as [->|]; [|reflexivity].
  destruct r as [|p r']; [reflexivity|].
  simpl in Hr. apply andb_true_iff in Hr as [Hp _].
  unfold is_decimal_digit in Hp. apply andb_true_iff in Hp as [Hplo Hphi].
  apply Z.leb_le in Hplo. apply Z.leb_le in Hphi.
  destruct (Z.eqb_spec p 120); [lia|]. destruct (Z.eqb_spec p 88); [lia|].
  destruct (Z.eqb_spec p 111); [lia|]. destruct (Z.eqb_spec p 79); [lia|].
  destruct (Z.eqb_spec p 98); [lia|]. destruct (Z.eqb_spec p 66); [lia|].
  reflexivity.
Qed.

(** The hexadecimal text of a BigInt that is not negative. *)
Lemma BigInt_toString16_digits (v : Z) :
  0 <= v ->
  exists ds : list Z,
    BigInt_toString16 v = List.map hex_digit ds
    /\ Forall (fun d => 0 <= d < 16) ds
    /\ hex_value ds = v.
Proof.
  intros Hv. unfold BigInt_toString16.
  destruct (Z.ltb_spec v 0); [lia|]. rewrite Z.abs_eq by lia.
  destruct (hex_digits_spec (S (Z.to_nat (Z.log2 v))) v [])
    as (ds & Hrun & Hds & Hval & _).
  { split; [lia|].
    rewrite Nat2Z.inj_succ, Z2Nat.id by apply Z.log2_nonneg.
    destruct (Z.eq_dec v 0) as [->|Hnz]; [reflexivity|].
    assert (Hpos : 0 < v) by lia.
    pose proof (Z.log2_spec v Hpos) as [_ Hlt].
    eapply Z.lt_le_trans; [exact Hlt|].
    apply Z.pow_le_mono_l. lia. }
  exists ds. rewrite app_nil_r in Hrun. done.
Qed.

(** A single character after an even number of hexadecimal digits is
    dropped. *)
Lemma Buffer_from_hex_trailing (k : nat) (ds : list Z) (x : Z) :
  length ds = (2 * k)%nat ->
  Forall (fun d => 0 <= d < 16) ds ->
  Buffer_from_hex (List.map hex_digit ds ++ [x])
  = Buffer_from_hex (List.map hex_digit ds)
  /\ length (Buffer_from_hex (List.map hex_digit ds)) = k.
Proof.
  revert ds. induction k as [|k IH]; intros ds Hlen Hds.
  - destruct ds; [|discriminate]. by split.
  - destruct ds as [|a [|b r]]; try (simpl in Hlen; lia).
    apply Forall_cons in Hds as [Ha Hds].
    apply Forall_cons in Hds as [Hb Hr].
    destruct (IH r) as [Hsame Hcount]; [simpl in Hlen; lia | exact Hr |].
    cbn [List.map Buffer_from_hex app].
    rewrite (unhex_hex_digit a Ha), (unhex_hex_digit b Hb).
    split; [by rewrite Hsame | simpl; by rewrite Hcount].
Qed.

Section PostIdDecimal.

Variable Number_toString16 : JSString -> JSString.

(** For a supported platform, a postId of decimal digits never makes
    [toPostIdBuf] throw.  The buffer has one byte for every two hexadecimal
    digits of the value; it denotes the value when the number of digits is
    even, and the value divided by 16 (the last digit is lost) when it is
    odd. *)
Theorem toPostIdBuf_decimal
    (platform : string) (platformSpec : PlatformParameters) (postId : JSString) :
  Object_get PLATFORMS platform = Some platformSpec ->
  regex_decimal_digits postId = true ->
  exists (v : Z) (buf : Buffer),
    BigInt postId = Return v
    /\ 0 <= v
    /\ toPostIdBuf Number_toString16 platform postId = Return buf
    /\ Forall (fun b => 0 <= b < 256) buf
    /\ length buf = (length (BigInt_toString16 v) / 2)%nat
    /\ big_endian_value buf
       = if Nat.even (length (BigInt_toString16 v)) then v else v / 16.
Proof.
  intros Hspec Hregex.
  destruct (BigInt_decimal_digits postId Hregex) as (v & Hbig & Hv).
  destruct (BigInt_toString16_digits v Hv) as (ds & Hhex & Hds & Hval).
  exists v, (Buffer_from_hex (List.map hex_digit ds)).
  split; [exact Hbig|]. split; [exact Hv|]. split.
  { unfold toPostIdBuf. rewrite Hspec.
    destruct (PLATFORMS_supported _ _ Hspec) as (-> & _ & _).
    rewrite Hbig. simpl mbind. by rewrite Hhex. }
  rewrite Hhex, length_map.
  destruct (Nat.even (length ds)) eqn:Hparity.
  - apply Nat.even_spec in Hparity as [k Hk].
    destruct (Buffer_from_hex_pairs k ds Hk Hds) as [Hbytes Hsame].
    destruct (Buffer_from_hex_trailing k ds 0 Hk Hds) as [_ Hcount].
    split; [exact Hbytes|]. split.
    + rewrite Hcount, Hk, Nat.mul_comm, Nat.div_mul by lia. reflexivity.
    + unfold big_endian_value. rewrite Hsame. exact Hval.
  - assert (Hodd : Nat.odd (length ds) = true)
      by (rewrite <- Nat.negb_even, Hparity; reflexivity).
    apply Nat.odd_spec in Hodd as [k Hk].
    destruct ds as [|d0 ds0] using rev_ind; [simpl in Hk; lia|]. clear IHds0.
    rewrite length_app in Hk. simpl in Hk.
    assert (Hk' : length ds0 = (2 * k)%nat) by lia.
    apply Forall_app in Hds as [Hds0 Hd0].
    apply Forall_cons in Hd0 as [Hd0 _].
    destruct (Buffer_from_hex_pairs k ds0 Hk' Hds0) as [Hbytes Hsame].
    destruct (Buffer_from_hex_trailing k ds0 (hex_digit d0) Hk' Hds0)
      as [Hdrop Hcount].
    rewrite List.map_app. cbn [List.map]. rewrite Hdrop.
    split; [exact Hbytes|]. split.
    + rewrite Hcount, length_app, Hk'. simpl length.
      replace (2 * k + 1)%nat with (1 + k * 2)%nat by lia.
      rewrite Nat.div_add by lia. reflexivity.
    + unfold big_endian_value. rewrite Hsame.
      unfold hex_value in Hval. rewrite fold_left_app in Hval. simpl in Hval.
      apply Z.div_unique with d0; lia.
Qed.

(** A minus sign in front of decimal digits is read by [BigInt], and the
    postId is then encoded as the empty buffer. *)
Theorem toPostIdBuf_negative_is_empty
    (platform : string) (platformSpec : PlatformParameters) (digits : JSString) :
  Object_get PLATFORMS platform = Some platformSpec ->
  regex_decimal_digits digits = true ->
  toPostIdBuf Number_toString16 platform (45 :: digits) = Return [].
Proof.
  intros Hspec Hregex.
  destruct (BigInt_decimal_digits digits Hregex) as (v & Hbig & Hv).
  unfold BigInt in Hbig. rewrite (StringToBigInt_decimal _ Hregex) in Hbig.
  destruct (digits_value 10 0 digits) as [v'|] eqn:Hdigits; [|discriminate].
  injection Hbig as ->.
  assert (Hminus : StringToBigInt (45 :: digits) = Some (- v)).
  { unfold StringToBigInt. rewrite trim_ws_no_white_space.
    - change (45 =? 43) with false. change (45 =? 45) with true. cbv iota.
      destruct digits as [|c r]; [discriminate|].
      change (parse_digits 10 (c :: r)) with (digits_value 10 0 (c :: r)).
      by rewrite Hdigits.
    - constructor; [reflexivity|].
      apply decimal_digit_no_white_space.
      destruct digits; [discriminate | exact Hregex]. }
  unfold toPostIdBuf. rewrite Hspec.
  destruct (PLATFORMS_supported _ _ Hspec) as (-> & _ & _).
  unfold BigInt. rewrite Hminus. simpl mbind. f_equal.
  destruct (Z.eq_dec v 0) as [->|Hnz]; [reflexivity|].
  unfold BigInt_toString16. destruct (Z.ltb_spec (- v) 0); [|lia].
  by destruct (hex_digits _ _ _) as [|x [|y r]].
Qed.

(** Zeros in front of a decimal postId do not change its encoding: the
    postId is encoded by its value, not by its text. *)
Theorem toPostIdBuf_leading_zero
    (platform : string) (postId : JSString) :
  regex_decimal_digits postId = true ->
  toPostIdBuf Number_toString16 platform (48 :: postId)
  = toPostIdBuf Number_toString16 platform postId.
Proof.
  intros Hregex.
  assert (Hregex0 : regex_decimal_digits (48 :: postId) = true).
  { destruct postId; [discriminate | exact Hregex]. }
  unfold toPostIdBuf.
  destruct (Object_get PLATFORMS platform) as [platformSpec|] eqn:Hspec;
    [|reflexivity].
  destruct (PLATFORMS_supported _ _ Hspec) as (-> & _ & _). unfold BigInt.
  rewrite (StringToBigInt_decimal _ Hregex), (StringToBigInt_decimal _ Hregex0).
  reflexivity.
Qed.

End PostIdDecimal.

Lemma toPostIdBuf_decimal_witness :
  exists (v : Z) (buf : Buffer),
    BigInt (str "256") = Return v
    /\ 0 <= v
    /\ toPostIdBuf (fun s => s) "twitter" (str "256") = Return buf
    /\ Forall (fun b => 0 <= b < 256) buf
    /\ length buf = (length (BigInt_toString16 v) / 2)%nat
    /\ big_endian_value buf
       = if Nat.even (length (BigInt_toString16 v)) then v else v / 16.
Proof.
  exact (toPostIdBuf_decimal (fun s => s) "twitter" _ (str "256") eq_refl eq_refl).
Defined.

Lemma toPostIdBuf_negative_is_empty_witness :
  toPostIdBuf (fun s => s) "twitter" (str "-255") = Return [].
Proof.
  exact (toPostIdBuf_negative_is_empty (fun s => s) "twitter" _ (str "255")
           eq_refl eq_refl).
Defined.

Lemma toPostIdBuf_leading_zero_witness :
  toPostIdBuf (fun s => s) "twitter" (str "007")
  = toPostIdBuf (fun s => s) "twitter" (str "07").
Proof.
  exact (toPostIdBuf_leading_zero (fun s => s) "twitter" (str "07") eq_refl).
Defined.

Lemma toPostIdBuf_even_hex_length_witness :
  exists buf : Buffer,
    toPostIdBuf (fun s => s) "twitter" (str "1453489038468431875") = Return buf
    /\ minimal_big_endian 1453489038468431875 buf.
Proof.
  destruct (toPostIdBuf_even_hex_length (fun s => s) "twitter" _
              (str "1453489038468431875") eq_refl eq_refl)
    as (v & Hv & Hbuf).
  vm_compute in Hv. injection Hv as <-.
  apply Hbuf; [lia | by exists 8%nat].
Defined.

(** ** Registries: absent labels, empty buffers and the way back *)

Lemma toPlatformBuf_loop_absent (entries : JSMap string) (platform : string) :
  toPlatformBuf_loop entries platform = None
  <-> forall code, ~ In (code, platform) entries.
Proof.
  induction entries as [|[k name] r IH]; simpl.
  - split; [intros _ code [] | reflexivity].
  - destruct (String.eqb_spec name platform) as [->|Hname].
    + split; [discriminate|]. intros Habsent. destruct (Habsent k). by left.
    + rewrite IH. split.
      * intros Habsent code [[= _ Heq]|Hin]; [done | by apply (Habsent code)].
      * intros Habsent code Hin. apply (Habsent code). by right.
Qed.

Lemma toPlatformBuf_loop_found
    (entries : JSMap string) (platform : string) (buf : Buffer) :
  toPlatformBuf_loop entries platform = Some buf ->
  exists code, In (code, platform) entries /\ buf = [Z.land code 255].
Proof.
  induction entries as [|[k name] r IH]; simpl; [discriminate|].
  destruct (String.eqb_spec name platform) as [->|Hname].
  - intros [= <-]. exists k. split; [by left | reflexivity].
  - intros Hfound. destruct (IH Hfound) as (code & Hin & ->).
    exists code. split; [by right | reflexivity].
Qed.

(** [toPlatformBuf] returns nothing exactly for the labels the platform
    registry does not hold; what it returns otherwise is a buffer of one
    byte, a code the registry gives that label. *)
Theorem toPlatformBuf_registered_or_absent (platform : string) :
  (toPlatformBuf platform = None
   <-> forall code, ~ In (code, platform) SCRIPT_CHUNK_PLATFORM)
  /\ (forall buf : Buffer,
        toPlatformBuf platform = Some buf ->
        exists code,
          In (code, platform) SCRIPT_CHUNK_PLATFORM
          /\ buf = [code]
          /\ toPlatformUTF8 buf = Return (Some platform)).
Proof.
  split; [apply toPlatformBuf_loop_absent|].
  intros buf Hfound.
  destruct (toPlatformBuf_loop_found _ _ _ Hfound) as (code & Hin & ->).
  exists code. split; [exact Hin|].
  destruct Hin as [[= <- <-]|[]]. by split.
Qed.

(** Decoding then encoding: when [toPlatformUTF8] reads a label from a
    buffer, [toPlatformBuf] of that label is the buffer's first byte. *)
Theorem toPlatform_decode_encode (platformBuf : Buffer) (platform : string) :
  toPlatformUTF8 platformBuf = Return (Some platform) ->
  exists byte rest,
    platformBuf = byte :: rest /\ toPlatformBuf platform = Some [byte].
Proof.
  destruct platformBuf as [|byte rest]; [discriminate|].
  change (toPlatformUTF8 (byte :: rest))
    with (Return (Map_get byte SCRIPT_CHUNK_PLATFORM)).
  intros [= Hget]. exists byte, rest. split; [reflexivity|].
  unfold SCRIPT_CHUNK_PLATFORM in Hget. simpl in Hget.
  destruct (Z.eqb_spec byte 1) as [->|]; [|discriminate].
  by injection Hget as <-.
Qed.

Lemma toPlatform_decode_encode_witness :
  exists byte rest,
    [0x01; 0x63] = byte :: rest /\ toPlatformBuf "twitter" = Some [byte].
Proof. exact (toPlatform_decode_encode [0x01; 0x63] "twitter" eq_refl). Defined.

(** Decoding then encoding a sentiment: when [toSentimentUTF8] reads a
    sentiment from a buffer, [toSentimentOpCode] of that sentiment names the
    opcode whose byte is the buffer's first byte. *)
Theorem toSentiment_decode_encode (sentimentBuf : Buffer) (sentiment : string) :
  toSentimentUTF8 sentimentBuf = Return (Some sentiment) ->
  exists byte rest name,
    sentimentBuf = byte :: rest
    /\ toSentimentOpCode sentiment = Some name
    /\ Opcode_byte name = Some byte.
Proof.
  destruct sentimentBuf as [|byte rest]; [discriminate|].
  change (toSentimentUTF8 (byte :: rest))
    with (Return (Map_get byte SCRIPT_CHUNK_SENTIMENT)).
  intros [= Hget]. exists byte, rest.
  unfold SCRIPT_CHUNK_SENTIMENT in Hget. simpl in Hget.
  destruct (Z.eqb_spec byte 0x51) as [->|].
  - injection Hget as <-. by exists "OP_1".
  - destruct (Z.eqb_spec byte 0) as [->|]; [|discriminate].
    injection Hget as <-. by exists "OP_0".
Qed.

Lemma toSentiment_decode_encode_witness :
  exists byte rest name,
    [0x00] = byte :: rest
    /\ toSentimentOpCode "negative" = Some name
    /\ Opcode_byte name = Some byte.
Proof. exact (toSentiment_decode_encode [0x00] "negative" eq_refl). Defined.

(** The two registry decoders throw, a RangeError, exactly on the empty
    buffer; on any other buffer they return, and what they return depends
    on the first byte alone. *)
Theorem registry_decoders_read_first_byte (buf : Buffer) :
  (toPlatformUTF8 buf = Throw RangeError <-> buf = [])
  /\ (toSentimentUTF8 buf = Throw RangeError <-> buf = [])
  /\ (forall byte rest,
        buf = byte :: rest ->
        toPlatformUTF8 buf = Return (Map_get byte SCRIPT_CHUNK_PLATFORM)
        /\ toSentimentUTF8 buf = Return (Map_get byte SCRIPT_CHUNK_SENTIMENT)).
Proof.
  destruct buf as [|b r].
  - repeat split; discriminate.
  - split; [split; discriminate|]. split; [split; discriminate|].
    intros byte rest [= <- <-]. by split.
Qed.

(** [toSentimentOpCode] names an opcode for the two sentiments and for no
    other string. *)
Theorem toSentimentOpCode_defined_iff (sentiment : string) :
  (exists name, toSentimentOpCode sentiment = Some name)
  <-> sentiment = "positive" \/ sentiment = "negative".
Proof.
  unfold toSentimentOpCode.
  destruct (String.eqb_spec sentiment "positive") as [->|Hp].
  - split; [by left | by exists "OP_1"].
  - destruct (String.eqb_spec sentiment "negative") as [->|Hn].
    + split; [by right | by exists "OP_0"].
    + split; [intros [name Hname]; discriminate | intros [|]; done].
Qed.

Lemma toPlatformBuf_loop_registered_witness :
  exists byte : Z,
    toPlatformBuf_loop [(0x01, "twitter"); (0x02, "instagram")] "instagram"
    = Some [byte]
    /\ Map_get byte [(0x01, "twitter"); (0x02, "instagram")] = Some "instagram".
Proof.
  apply (toPlatformBuf_loop_registered
           [(0x01, "twitter"); (0x02, "instagram")] "instagram" 0x02).
  - simpl. constructor.
    + intros Hin%list_elem_of_In. simpl in Hin. intuition lia.
    + constructor; [|constructor]. intros Hin%list_elem_of_In. destruct Hin.
  - repeat (constructor; [simpl; lia|]). constructor.
  - reflexivity.
Defined.

(** ** Bit operations as arithmetic *)

(** From here on [lia] also reasons about division and remainder by
    constants. *)
Ltac Zify.zify_post_hook ::= Z.to_euclidean_division_equations.

Lemma lor_disjoint (x y : Z) (k : Z) :
  0 <= k -> 0 <= y < 2 ^ k -> Z.lor (x * 2 ^ k) y = x * 2 ^ k + y.
Proof.
  intros Hk Hy. symmetry. apply Z.add_nocarry_lor.
  apply Z.bits_inj'. intros n Hn. rewrite Z.land_spec, Z.bits_0.
  destruct (Z.lt_ge_cases n k) as [Hlow|Hhigh].
  - by rewrite Z.mul_pow2_bits_low.
  - rewrite andb_false_r || idtac.
    assert (Hbit : Z.testbit y n = false).
    { destruct (Z.eq_dec y 0) as [->|Hnz]; [apply Z.bits_0|].
      apply Z.bits_above_log2; [lia|].
      apply Z.lt_le_trans with k; [|exact Hhigh].
      apply Z.log2_lt_pow2; lia. }
    rewrite Hbit. apply andb_false_r.
Qed.

Lemma lor_const (c x y k : Z) :
  c = x * 2 ^ k -> 0 <= k -> 0 <= y < 2 ^ k -> Z.lor c y = c + y.
Proof. intros -> Hk Hy. by apply lor_disjoint. Qed.

Lemma land_low_bits (x k : Z) (m : Z) :
  m = Z.ones k -> 0 <= k -> Z.land x m = x mod 2 ^ k.
Proof. intros -> Hk. by apply Z.land_ones. Qed.

(** Rewrites shifts and low-bit masks into multiplication, division and
    remainder. *)
Ltac bits_to_arith :=
  repeat first
    [ rewrite Z.shiftr_div_pow2 by lia
    | rewrite Z.shiftl_mul_pow2 by lia
    | rewrite (land_low_bits _ 2 3) by (reflexivity || lia)
    | rewrite (land_low_bits _ 3 7) by (reflexivity || lia)
    | rewrite (land_low_bits _ 4 0xF) by (reflexivity || lia)
    | rewrite (land_low_bits _ 5 0x1F) by (reflexivity || lia)
    | rewrite (land_low_bits _ 6 0x3F) by (reflexivity || lia)
    | rewrite (land_low_bits _ 8 255) by (reflexivity || lia)
    | rewrite (land_low_bits _ 10 0x3FF) by (reflexivity || lia) ].

(** ** UTF-8: decoding what was encoded *)

Lemma utf8_of_code_point_arith (cp : Z) :
  0 <= cp <= 0x10FFFF ->
  utf8_of_code_point cp
  = if cp <? 0x80 then [cp]
    else if cp <? 0x800 then [0xC0 + cp / 64; 0x80 + cp mod 64]
    else if cp <? 0x10000 then
      [0xE0 + cp / 4096; 0x80 + (cp / 64) mod 64; 0x80 + cp mod 64]
    else
      [0xF0 + cp / 262144; 0x80 + (cp / 4096) mod 64;
       0x80 + (cp / 64) mod 64; 0x80 + cp mod 64].
Proof.
  intros Hcp. unfold utf8_of_code_point.
  destruct (Z.ltb_spec cp 0x80); [reflexivity|].
  bits_to_arith.
  change (2 ^ 6) with 64. change (2 ^ 12) with 4096. change (2 ^ 18) with 262144.
  assert (Htail : forall y, 0 <= y -> Z.lor 0x80 (y mod 64) = 0x80 + y mod 64).
  { intros y Hy. apply (lor_const _ 2 _ 6); [reflexivity | lia |].
    change (2 ^ 6) with 64. apply Z.mod_pos_bound. lia. }
  rewrite !Htail by (try apply Z.div_pos; lia).
  destruct (Z.ltb_spec cp 0x800).
  { rewrite (lor_const 0xC0 3 _ 6); [reflexivity | reflexivity | lia |].
    change (2 ^ 6) with 64. lia. }
  destruct (Z.ltb_spec cp 0x10000).
  { rewrite (lor_const 0xE0 14 _ 4); [reflexivity | reflexivity | lia |].
    change (2 ^ 4) with 16. lia. }
  rewrite (lor_const 0xF0 30 _ 3); [reflexivity | reflexivity | lia |].
  change (2 ^ 3) with 8. lia.
Qed.

Lemma utf8_decode_lead (b : Z) (r : list Z) :
  utf8_decode_from utf8_init (b :: r)
  = (utf8_lead b).1 ++ utf8_decode_from (utf8_lead b).2 r.
Proof. cbn [utf8_decode_from]. simpl u_needed. by destruct (utf8_lead b). Qed.

Lemma utf8_decode_continuation
    (cp seen needed lower upper b : Z) (r : list Z) :
  needed <> 0 -> lower <= b <= upper ->
  utf8_decode_from (mk_utf8_state cp seen needed lower upper) (b :: r)
  = if seen + 1 =? needed
    then (cp * 64 + b mod 64) :: utf8_decode_from utf8_init r
    else utf8_decode_from
           (mk_utf8_state (cp * 64 + b mod 64) (seen + 1) needed 0x80 0xBF) r.
Proof.
  intros Hneeded Hb. cbn [utf8_decode_from u_needed u_lower u_upper u_seen u_code_point].
  destruct (Z.eqb_spec needed 0); [done|].
  destruct (Z.ltb_spec b lower); [lia|].
  destruct (Z.ltb_spec upper b); [lia|]. cbn [orb].
  bits_to_arith.
  rewrite lor_disjoint by (change (2 ^ 6) with 64; lia).
  reflexivity.
Qed.

(** The decoder reads the bytes of one encoded scalar value as that value
    and is back in its initial state. *)
Lemma utf8_decode_code_point (cp : Z) (rest : list Z) :
  scalar_value cp ->
  utf8_decode_from utf8_init (utf8_of_code_point cp ++ rest)
  = cp :: utf8_decode_from utf8_init rest.
Proof.
  intros Hcp. rewrite utf8_of_code_point_arith by (unfold scalar_value in Hcp; lia).
  unfold scalar_value in Hcp.
  destruct (Z.ltb_spec cp 0x80) as [H1|H1].
  { cbn [app]. rewrite utf8_decode_lead. unfold utf8_lead.
    destruct (Z.leb_spec cp 0x7F); [reflexivity | lia]. }
  destruct (Z.ltb_spec cp 0x800) as [H2|H2].
  { cbn [app]. rewrite utf8_decode_lead. unfold utf8_lead.
    destruct (Z.leb_spec (0xC0 + cp / 64) 0x7F); [lia|].
    destruct (Z.leb_spec 0xC2 (0xC0 + cp / 64)); [|lia].
    destruct (Z.leb_spec (0xC0 + cp / 64) 0xDF); [|lia].
    cbn [andb fst snd app].
    rewrite utf8_decode_continuation by lia. cbn [Z.eqb Z.add Pos.eqb].
    bits_to_arith. change (2 ^ 5) with 32. f_equal. lia. }
  destruct (Z.ltb_spec cp 0x10000) as [H3|H3].
  { cbn [app]. rewrite utf8_decode_lead. unfold utf8_lead.
    destruct (Z.leb_spec (0xE0 + cp / 4096) 0x7F); [lia|].
    destruct (Z.leb_spec 0xC2 (0xE0 + cp / 4096)); [|lia].
    destruct (Z.leb_spec (0xE0 + cp / 4096) 0xDF); [lia|].
    destruct (Z.leb_spec 0xE0 (0xE0 + cp / 4096)); [|lia].
    destruct (Z.leb_spec (0xE0 + cp / 4096) 0xEF); [|lia].
    cbn [andb fst snd app].
    rewrite utf8_decode_continuation;
      [|lia|
       destruct (Z.eqb_spec (0xE0 + cp / 4096) 0xE0);
       destruct (Z.eqb_spec (0xE0 + cp / 4096) 0xED); lia].
    change (0 + 1 =? 2) with false. cbv iota.
    rewrite utf8_decode_continuation by lia.
    change (0 + 1 + 1 =? 2) with true. cbv iota.
    bits_to_arith. change (2 ^ 4) with 16. f_equal. lia. }
  cbn [app]. rewrite utf8_decode_lead. unfold utf8_lead.
  destruct (Z.leb_spec (0xF0 + cp / 262144) 0x7F); [lia|].
  destruct (Z.leb_spec 0xC2 (0xF0 + cp / 262144)); [|lia].
  destruct (Z.leb_spec (0xF0 + cp / 262144) 0xDF); [lia|].
  destruct (Z.leb_spec 0xE0 (0xF0 + cp / 262144)); [|lia].
  destruct (Z.leb_spec (0xF0 + cp / 262144) 0xEF); [lia|].
  destruct (Z.leb_spec 0xF0 (0xF0 + cp / 262144)); [|lia].
  destruct (Z.leb_spec (0xF0 + cp / 262144) 0xF4); [|lia].
  cbn [andb fst snd app].
  rewrite utf8_decode_continuation;
    [|lia|
     destruct (Z.eqb_spec (0xF0 + cp / 262144) 0xF0);
     destruct (Z.eqb_spec (0xF0 + cp / 262144) 0xF4); lia].
  change (0 + 1 =? 3) with false. cbv iota.
  rewrite utf8_decode_continuation by lia.
  change (0 + 1 + 1 =? 3) with false. cbv iota.
  rewrite utf8_decode_continuation by lia.
  change (0 + 1 + 1 + 1 =? 3) with true. cbv iota.
  bits_to_arith. change (2 ^ 3) with 8. f_equal. lia.
Qed.

Lemma utf8_of_code_point_bytes (cp : Z) :
  scalar_value cp ->
  Forall (fun b => 0 <= b < 256) (utf8_of_code_point cp)
  /\ (cp <> 0 -> Forall (fun b => b <> 0) (utf8_of_code_point cp)).
Proof.
  intros Hcp. unfold scalar_value in Hcp.
  rewrite utf8_of_code_point_arith by lia.
  destruct (Z.ltb_spec cp 0x80); [|destruct (Z.ltb_spec cp 0x800);
    [|destruct (Z.ltb_spec cp 0x10000)]];
    split; try intros Hnz; repeat (constructor; [lia|]); constructor.
Qed.

Lemma utf8_decode_encode (cps : list Z) :
  Forall scalar_value cps ->
  utf8_decode_from utf8_init (concat (List.map utf8_of_code_point cps)) = cps.
Proof.
  induction 1 as [|cp r Hcp _ IH]; [reflexivity|].
  cbn [List.map concat]. unfold JSString, Buffer in *.
  by rewrite utf8_decode_code_point, IH.
Qed.

(** The code points of a well-formed string are scalar values, and their
    UTF-16 code units are the string. *)
Lemma code_points_well_formed (s : JSString) :
  well_formed s = true ->
  Forall scalar_value (code_points s)
  /\ concat (List.map utf16_of_code_point (code_points s)) = s
  /\ (Forall (fun c => c <> 0) s -> Forall (fun cp => cp <> 0) (code_points s)).
Proof.
  remember (length s) as n eqn:Hn.
  revert s Hn. induction n as [n IH] using lt_wf_ind. intros s -> Hwf.
  destruct s as [|c r]; [by repeat split|].
  cbn [well_formed code_points] in *.
  unfold is_high_surrogate, is_low_surrogate in *.
  destruct (Z.leb_spec 0xD800 c) as [Hhi1|Hhi1];
    [destruct (Z.leb_spec c 0xDBFF) as [Hhi2|Hhi2]|]; cbn [andb] in *.
  - (* a surrogate pair *)
    destruct r as [|d r']; [discriminate|].
    apply andb_true_iff in Hwf as [Hlow Hwf].
    apply andb_true_iff in Hlow as [Hlo1 Hlo2].
    apply Z.leb_le in Hlo1. apply Z.leb_le in Hlo2.
    destruct (Z.leb_spec 0xDC00 d); [|lia].
    destruct (Z.leb_spec d 0xDFFF); [|lia]. cbn [andb].
    destruct (IH (length r') ltac:(simpl; lia) r' eq_refl Hwf)
      as (Hscalar & Hunits & Hnz).
    set (cp := 0x10000 + Z.shiftl (c - 0xD800) 10 + (d - 0xDC00)).
    assert (Hcp : cp = 0x10000 + (c - 0xD800) * 1024 + (d - 0xDC00)).
    { unfold cp. by rewrite Z.shiftl_mul_pow2 by lia. }
    split; [|split].
    + constructor; [unfold scalar_value; lia | exact Hscalar].
    + cbn [List.map concat]. rewrite Hunits. unfold utf16_of_code_point.
      destruct (Z.ltb_spec cp 0x10000); [lia|].
      bits_to_arith. change (2 ^ 10) with 1024.
      cbn [app]. f_equal; [lia|]. f_equal. lia.
    + intros Hr. constructor; [lia|]. apply Hnz.
      apply Forall_cons in Hr as [_ Hr]. by apply Forall_cons in Hr as [_ Hr].
  - (* not a high surrogate: above the range *)
    destruct (Z.leb_spec 0xDC00 c); [|lia].
    destruct (Z.leb_spec c 0xDFFF); cbn [andb] in *; [discriminate|].
    apply andb_true_iff in Hwf as [Hrange Hwf].
    apply andb_true_iff in Hrange as [Hlo Hup].
    apply Z.leb_le in Hlo. apply Z.leb_le in Hup.
    destruct (IH (length r) ltac:(simpl; lia) r eq_refl Hwf)
      as (Hscalar & Hunits & Hnz).
    split; [|split].
    + constructor; [unfold scalar_value; lia | exact Hscalar].
    + cbn [List.map concat]. rewrite Hunits. unfold utf16_of_code_point.
      destruct (Z.ltb_spec c 0x10000); [reflexivity | lia].
    + intros Hr. apply Forall_cons in Hr as [Hc Hr].
      constructor; [exact Hc | by apply Hnz].
  - (* below the surrogates *)
    destruct (Z.leb_spec 0xDC00 c); [lia|]. cbn [andb] in *.
    apply andb_true_iff in Hwf as [Hrange Hwf].
    apply andb_true_iff in Hrange as [Hlo Hup].
    apply Z.leb_le in Hlo. apply Z.leb_le in Hup.
    destruct (IH (length r) ltac:(simpl; lia) r eq_refl Hwf)
      as (Hscalar & Hunits & Hnz).
    split; [|split].
    + constructor; [unfold scalar_value; lia | exact Hscalar].
    + cbn [List.map concat]. rewrite Hunits. unfold utf16_of_code_point.
      destruct (Z.ltb_spec c 0x10000); [reflexivity | lia].
    + intros Hr. apply Forall_cons in Hr as [Hc Hr].
      constructor; [exact Hc | by apply Hnz].
Qed.

(** Encoding a well-formed string as UTF-8 and decoding the bytes gives
    the string back. *)
Lemma Buffer_toString_utf8_from_utf8 (s : JSString) :
  well_formed s = true ->
  Buffer_toString_utf8 (Buffer_from_utf8 s) = s.
Proof.
  intros Hwf. destruct (code_points_well_formed s Hwf) as (Hscalar & Hunits & _).
  unfold Buffer_toString_utf8, Buffer_from_utf8, utf8_chars.
  by rewrite utf8_decode_encode.
Qed.

Lemma utf8_of_code_points_bytes (cps : list Z) :
  Forall scalar_value cps ->
  Forall (fun b => 0 <= b < 256) (concat (List.map utf8_of_code_point cps))
  /\ (Forall (fun cp => cp <> 0) cps ->
      Forall (fun b => b <> 0) (concat (List.map utf8_of_code_point cps))).
Proof.
  induction 1 as [|cp r Hcp _ [IHbytes IHnz]]; [by split|].
  cbn [List.map concat].
  destruct (utf8_of_code_point_bytes cp Hcp) as [Hbytes Hnz]. split.
  - apply Forall_app. by split.
  - intros [Hcp0 Hr]%Forall_cons. apply Forall_app. split; auto.
Qed.

Lemma Buffer_from_utf8_bytes (s : JSString) :
  well_formed s = true ->
  Forall (fun b => 0 <= b < 256) (Buffer_from_utf8 s)
  /\ (Forall (fun c => c <> 0) s ->
      Forall (fun b => b <> 0) (Buffer_from_utf8 s)).
Proof.
  intros Hwf. destruct (code_points_well_formed s Hwf) as (Hscalar & _ & Hnz).
  unfold Buffer_from_utf8, utf8_chars.
  destruct (utf8_of_code_points_bytes _ Hscalar) as [Hbytes Hnonzero].
  split; [exact Hbytes | auto].
Qed.

(** [TextDecoder] on the UTF-8 bytes of a well-formed string: the string,
    without the byte order mark it may start with. *)
Lemma TextDecoder_decode_from_utf8 (s : JSString) :
  well_formed s = true ->
  TextDecoder_decode (Buffer_from_utf8 s) = strip_bom s.
Proof.
  intros Hwf. destruct (code_points_well_formed s Hwf) as (Hscalar & Hunits & _).
  unfold TextDecoder_decode, Buffer_from_utf8, utf8_chars.
  rewrite utf8_decode_encode by exact Hscalar.
  destruct (code_points s) as [|cp r] eqn:Hcps.
  - simpl in Hunits. by subst s.
  - apply Forall_cons in Hscalar as [Hcp _]. unfold scalar_value in Hcp.
    cbn [List.map concat] in Hunits. unfold utf16_of_code_point in Hunits at 1.
    destruct (Z.ltb_spec cp 0x10000) as [Hbmp|Hsup].
    + subst s. cbn [app strip_bom].
      destruct (Z.eqb_spec cp 0xFEFF); [reflexivity|].
      cbn [List.map concat]. unfold utf16_of_code_point at 1.
      destruct (Z.ltb_spec cp 0x10000); [reflexivity | lia].
    + subst s. cbn [app strip_bom].
      destruct (Z.eqb_spec cp 0xFEFF); [lia|].
      destruct (Z.eqb_spec (0xD800 + Z.shiftr (cp - 0x10000) 10) 0xFEFF) as [Heq|];
        [|by cbn [List.map concat]; unfold utf16_of_code_point at 1;
            destruct (Z.ltb_spec cp 0x10000); [lia|]].
      revert Heq. bits_to_arith. change (2 ^ 10) with 1024. lia.
Qed.

(** ** Base64: decoding what was encoded *)

Lemma unbase64_base64_char (v : Z) :
  0 <= v < 64 -> unbase64 (Z.land (base64_char v) 255) = Some v.
Proof.
  intros Hv.
  assert (Hchar : 0 <= base64_char v < 256).
  { unfold base64_char. case_compare; lia. }
  rewrite (land_low_bits _ 8 255) by (reflexivity || lia).
  change (2 ^ 8) with 256. rewrite Z.mod_small by exact Hchar.
  unfold base64_char.
  destruct (Z.ltb_spec v 26);
    [|destruct (Z.ltb_spec v 52);
      [|destruct (Z.ltb_spec v 62); [|destruct (Z.eqb_spec v 62)]]];
    unfold unbase64; case_compare; try lia; f_equal; lia.
Qed.

Lemma base64_decode_step (phase : nat) (hi v : Z) (r : JSString) :
  0 <= v < 64 ->
  base64_decode_from phase hi (base64_char v :: r)
  = match phase with
    | 0%nat => base64_decode_from 1 v r
    | 1%nat =>
        Z.lor (Z.shiftl (Z.land hi 0x3F) 2) (Z.shiftr (Z.land v 0x30) 4)
        :: base64_decode_from 2 v r
    | 2%nat =>
        Z.lor (Z.shiftl (Z.land hi 0x0F) 4) (Z.shiftr (Z.land v 0x3C) 2)
        :: base64_decode_from 3 v r
    | _ =>
        Z.lor (Z.shiftl (Z.land hi 0x03) 6) (Z.land v 0x3F)
        :: base64_decode_from 0 v r
    end.
Proof.
  intros Hv. cbn [base64_decode_from]. by rewrite (unbase64_base64_char v Hv).
Qed.

Lemma base64_decode_padding (phase : nat) (hi : Z) (r : JSString) :
  base64_decode_from phase hi (61 :: r) = [].
Proof. reflexivity. Qed.

(** The three bytes the decoder builds from four six-bit values. *)
Lemma base64_bytes_arith (hi lo : Z) :
  0 <= hi < 64 -> 0 <= lo < 64 ->
  Z.lor (Z.shiftl (Z.land hi 0x3F) 2) (Z.shiftr (Z.land lo 0x30) 4)
  = hi * 4 + lo / 16
  /\ Z.lor (Z.shiftl (Z.land hi 0x0F) 4) (Z.shiftr (Z.land lo 0x3C) 2)
     = (hi mod 16) * 16 + lo / 4
  /\ Z.lor (Z.shiftl (Z.land hi 0x03) 6) (Z.land lo 0x3F)
     = (hi mod 4) * 64 + lo.
Proof.
  intros Hhi Hlo. rewrite !Z.shiftr_land.
  change (Z.shiftr 0x30 4) with 3. change (Z.shiftr 0x3C 2) with 0xF.
  bits_to_arith.
  change (2 ^ 2) with 4. change (2 ^ 4) with 16. change (2 ^ 6) with 64.
  split; [|split].
  - rewrite (lor_const _ (hi mod 64) _ 2); [lia | reflexivity | lia |].
    change (2 ^ 2) with 4. lia.
  - rewrite (lor_const _ (hi mod 16) _ 4); [lia | reflexivity | lia |].
    change (2 ^ 4) with 16. lia.
  - rewrite (lor_const _ (hi mod 4) _ 6); [lia | reflexivity | lia |].
    change (2 ^ 6) with 64. lia.
Qed.

(** The six-bit values the encoder takes from three bytes. *)
Lemma base64_sextets_arith (a b c : Z) :
  0 <= a < 256 -> 0 <= b < 256 -> 0 <= c < 256 ->
  Z.shiftr a 2 = a / 4
  /\ Z.shiftl (Z.land a 3) 4 = (a mod 4) * 16
  /\ Z.lor (Z.shiftl (Z.land a 3) 4) (Z.shiftr b 4) = (a mod 4) * 16 + b / 16
  /\ Z.shiftl (Z.land b 0xF) 2 = (b mod 16) * 4
  /\ Z.lor (Z.shiftl (Z.land b 0xF) 2) (Z.shiftr c 6) = (b mod 16) * 4 + c / 64
  /\ Z.land c 0x3F = c mod 64.
Proof.
  intros Ha Hb Hc. bits_to_arith.
  change (2 ^ 2) with 4. change (2 ^ 4) with 16. change (2 ^ 6) with 64.
  repeat split.
  - rewrite (lor_const _ (a mod 4) _ 4); [lia | reflexivity | lia |].
    change (2 ^ 4) with 16. lia.
  - rewrite (lor_const _ (b mod 16) _ 2); [lia | reflexivity | lia |].
    change (2 ^ 2) with 4. lia.
Qed.

(** Decoding the base64 text of a buffer gives the buffer back. *)
Lemma Buffer_from_base64_toString (buf : Buffer) :
  Forall (fun b => 0 <= b < 256) buf ->
  forall hi, base64_decode_from 0 hi (Buffer_toString_base64 buf) = buf.
Proof.
  remember (length buf) as n eqn:Hn.
  revert buf Hn. induction n as [n IH] using lt_wf_ind. intros buf -> Hbuf hi.
  destruct buf as [|a [|b [|c r]]]; [reflexivity| | |].
  - apply Forall_cons in Hbuf as [Ha _].
    destruct (base64_sextets_arith a 0 0) as (S1 & S2 & _); [lia..|].
    cbn [Buffer_toString_base64]. rewrite S1, S2.
    rewrite !base64_decode_step, base64_decode_padding by lia.
    destruct (base64_bytes_arith (a / 4) ((a mod 4) * 16)) as (B1 & _);
      [lia..|].
    rewrite B1. f_equal. lia.
  - apply Forall_cons in Hbuf as [Ha Hbuf]. apply Forall_cons in Hbuf as [Hb _].
    destruct (base64_sextets_arith a b 0) as (S1 & _ & S2 & S3 & _); [lia..|].
    cbn [Buffer_toString_base64]. rewrite S1, S2, S3.
    rewrite !base64_decode_step, base64_decode_padding by lia.
    destruct (base64_bytes_arith (a / 4) ((a mod 4) * 16 + b / 16))
      as (B1 & _); [lia..|].
    destruct (base64_bytes_arith ((a mod 4) * 16 + b / 16) ((b mod 16) * 4))
      as (_ & B2 & _); [lia..|].
    rewrite B1, B2. f_equal; [lia|]. f_equal. lia.
  - apply Forall_cons in Hbuf as [Ha Hbuf]. apply Forall_cons in Hbuf as [Hb Hbuf].
    apply Forall_cons in Hbuf as [Hc Hr].
    destruct (base64_sextets_arith a b c) as (S1 & _ & S2 & _ & S3 & S4);
      [lia..|].
    cbn [Buffer_toString_base64]. rewrite S1, S2, S3, S4.
    rewrite !base64_decode_step by lia.
    destruct (base64_bytes_arith (a / 4) ((a mod 4) * 16 + b / 16))
      as (B1 & _); [lia..|].
    destruct (base64_bytes_arith ((a mod 4) * 16 + b / 16)
                ((b mod 16) * 4 + c / 64)) as (_ & B2 & _); [lia..|].
    destruct (base64_bytes_arith ((b mod 16) * 4 + c / 64) (c mod 64))
      as (_ & _ & B3); [lia..|].
    rewrite B1, B2, B3.
    rewrite (IH (length r) ltac:(simpl; lia) r eq_refl Hr).
    f_equal; [lia|]. f_equal; [lia|]. f_equal. lia.
Qed.

(** ** Text through the decoders *)

Lemma TextDecoder_decode_code_points (cps : list Z) :
  Forall scalar_value cps ->
  TextDecoder_decode (concat (List.map utf8_of_code_point cps))
  = strip_bom (concat (List.map utf16_of_code_point cps)).
Proof.
  intros Hscalar. unfold TextDecoder_decode.
  rewrite utf8_decode_encode by exact Hscalar.
  destruct Hscalar as [|cp r Hcp _]; [reflexivity|].
  unfold scalar_value in Hcp. cbn [List.map concat].
  unfold utf16_of_code_point at 2 3.
  destruct (Z.ltb_spec cp 0x10000) as [Hbmp|Hsup]; cbn [app strip_bom].
  - destruct (Z.eqb_spec cp 0xFEFF); [reflexivity|].
    cbn [List.map concat]. unfold utf16_of_code_point at 1.
    destruct (Z.ltb_spec cp 0x10000); [reflexivity | lia].
  - destruct (Z.eqb_spec cp 0xFEFF); [lia|].
    destruct (Z.eqb_spec (0xD800 + Z.shiftr (cp - 0x10000) 10) 0xFEFF) as [Heq|].
    + revert Heq. bits_to_arith. change (2 ^ 10) with 1024. lia.
    + cbn [List.map concat]. unfold utf16_of_code_point at 1.
      destruct (Z.ltb_spec cp 0x10000); [lia | reflexivity].
Qed.

Lemma Buffer_filter_nonzero_padded (n k : nat) (bytes : list Z) :
  Forall (fun b => b <> 0) bytes ->
  Buffer_filter_nonzero (replicate n 0 ++ bytes ++ replicate k 0) = bytes.
Proof.
  intros Hbytes. unfold Buffer_filter_nonzero.
  rewrite !List.filter_app.
  assert (Hzeros : forall m, List.filter (fun byte => negb (byte =? 0x00))
                               (replicate m 0) = []).
  { induction m as [|m IH]; [reflexivity | exact IH]. }
  rewrite !Hzeros, app_nil_r. cbn [app].
  induction Hbytes as [|b r Hb _ IH]; [reflexivity|].
  cbn [List.filter]. destruct (Z.eqb_spec b 0); [done|]. cbn [negb].
  by rewrite IH.
Qed.

(** What [toProfileIdBuf] writes, in code points. *)
Lemma toProfileIdBuf_written
    (platform : string) (platformSpec : PlatformParameters)
    (profileId : JSString) (buf : Buffer) :
  Object_get PLATFORMS platform = Some platformSpec ->
  toProfileIdBuf platform profileId = Return buf ->
  exists n k : nat,
    buf = replicate (16 - length profileId) 0
          ++ concat (List.map utf8_of_code_point (take n (code_points profileId)))
          ++ replicate k 0.
Proof.
  intros Hspec. rewrite (toProfileIdBuf_unfold _ _ _ Hspec).
  unfold Buffer_write. rewrite length_replicate.
  destruct (Z.ltb_spec (16 - Z.of_nat (length profileId)) 0) as [Hneg|Hok];
    [discriminate|].
  destruct (Z.ltb_spec (Z.of_nat 16) (16 - Z.of_nat (length profileId))); [lia|].
  simpl orb. cbv iota. intros [= <-].
  replace (Z.to_nat (16 - Z.of_nat (length profileId)))
    with (16 - length profileId)%nat by lia.
  replace (16 - (16 - length profileId))%nat with (length profileId) by lia.
  pose proof (utf8_fit_length (utf8_chars profileId) (length profileId)) as Hfit.
  destruct (utf8_fit_whole_chars (utf8_chars profileId) (length profileId))
    as [n Hn].
  rewrite Hn in *. unfold utf8_chars in *. rewrite List.firstn_map.
  exists n. eexists.
  change [0; 0; 0; 0; 0; 0; 0; 0; 0; 0; 0; 0; 0; 0; 0; 0] with (replicate 16 0).
  rewrite take_replicate, drop_replicate, Nat.min_l by lia. reflexivity.
Qed.

(** [toCommentUTF8] on the UTF-8 bytes of a well-formed comment returns the
    comment, less the byte order mark it may start with. *)
Theorem toCommentUTF8_from_utf8 (comment : JSString) :
  well_formed comment = true ->
  toCommentUTF8 (Buffer_from_utf8 comment) = strip_bom comment.
Proof. exact (TextDecoder_decode_from_utf8 comment). Qed.

Lemma toCommentUTF8_from_utf8_witness :
  toCommentUTF8 (Buffer_from_utf8 [0x20AC; 0xD83D; 0xDE00])
  = strip_bom [0x20AC; 0xD83D; 0xDE00].
Proof. exact (toCommentUTF8_from_utf8 [0x20AC; 0xD83D; 0xDE00] eq_refl). Defined.

(** [toProfileIdUTF8] decodes zero-padded UTF-8 of any well-formed text
    without NUL, multi-byte characters included: the loss in the profileId
    round trip is on the encoder's side. *)
Theorem toProfileIdUTF8_padded_utf8 (padding : nat) (profileId : JSString) :
  well_formed profileId = true ->
  Forall (fun c => c <> 0) profileId ->
  toProfileIdUTF8 (replicate padding 0 ++ Buffer_from_utf8 profileId)
  = strip_bom profileId.
Proof.
  intros Hwf Hnz. unfold toProfileIdUTF8.
  destruct (Buffer_from_utf8_bytes profileId Hwf) as [_ Hbytes].
  pose proof (Buffer_filter_nonzero_padded padding 0 _ (Hbytes Hnz)) as Hfilter.
  cbn [replicate] in Hfilter. rewrite app_nil_r in Hfilter.
  rewrite Hfilter. by apply TextDecoder_decode_from_utf8.
Qed.

Lemma toProfileIdUTF8_padded_utf8_witness :
  toProfileIdUTF8 (replicate 12 0 ++ Buffer_from_utf8 [0xE9; 0xE9])
  = strip_bom [0xE9; 0xE9].
Proof.
  apply (toProfileIdUTF8_padded_utf8 12 [0xE9; 0xE9] eq_refl).
  repeat (constructor; [lia|]). constructor.
Defined.

(** The profileId round trip never alters text, it only cuts it short: for
    well-formed text without NUL that [toProfileIdBuf] accepts, decoding
    the buffer gives a prefix of the profileId, cut between characters
    (less a byte order mark in front). *)
Theorem toProfileId_roundtrip_prefix
    (platform : string) (platformSpec : PlatformParameters)
    (profileId : JSString) (buf : Buffer) :
  Object_get PLATFORMS platform = Some platformSpec ->
  well_formed profileId = true ->
  Forall (fun c => c <> 0) profileId ->
  toProfileIdBuf platform profileId = Return buf ->
  exists kept dropped : JSString,
    profileId = kept ++ dropped
    /\ well_formed kept = true
    /\ toProfileIdUTF8 buf = strip_bom kept.
Proof.
  intros Hspec Hwf Hnz Hbuf.
  destruct (toProfileIdBuf_written _ _ _ _ Hspec Hbuf) as (n & k & ->).
  destruct (code_points_well_formed profileId Hwf) as (Hscalar & Hunits & Hcps).
  specialize (Hcps Hnz).
  set (cps := code_points profileId) in *.
  exists (concat (List.map utf16_of_code_point (take n cps))),
         (concat (List.map utf16_of_code_point (drop n cps))).
  assert (Hkept : Forall scalar_value (take n cps)) by by apply Forall_take.
  split; [|split].
  - rewrite <- concat_app, <- List.map_app, take_drop. by symmetry.
  - clear -Hkept. induction Hkept as [|cp r Hcp _ IH]; [reflexivity|].
    cbn [List.map concat]. unfold utf16_of_code_point at 1.
    unfold scalar_value in Hcp.
    destruct (Z.ltb_spec cp 0x10000) as [Hbmp|Hsup]; cbn [app well_formed].
    + unfold is_high_surrogate, is_low_surrogate.
      destruct (Z.leb_spec 0xD800 cp); [|destruct (Z.leb_spec 0xDC00 cp); [lia|]];
        cbn [andb].
      * destruct (Z.leb_spec cp 0xDBFF); [lia|]. cbn [andb].
        destruct (Z.leb_spec 0xDC00 cp); [|lia].
        destruct (Z.leb_spec cp 0xDFFF); [lia|]. cbn [andb].
        destruct (Z.leb_spec 0 cp); [|lia].
        destruct (Z.leb_spec cp 0xFFFF); [exact IH | lia].
      * destruct (Z.leb_spec 0 cp); [|lia].
        destruct (Z.leb_spec cp 0xFFFF); [exact IH | lia].
    + unfold is_high_surrogate, is_low_surrogate.
      revert IH. bits_to_arith. change (2 ^ 10) with 1024. intros IH.
      destruct (Z.leb_spec 0xD800 (0xD800 + (cp - 0x10000) / 1024)); [|lia].
      destruct (Z.leb_spec (0xD800 + (cp - 0x10000) / 1024) 0xDBFF); [|lia].
      destruct (Z.leb_spec 0xDC00 (0xDC00 + (cp - 0x10000) mod 1024)); [|lia].
      destruct (Z.leb_spec (0xDC00 + (cp - 0x10000) mod 1024) 0xDFFF); [|lia].
      exact IH.
  - unfold toProfileIdUTF8.
    rewrite Buffer_filter_nonzero_padded.
    + by apply TextDecoder_decode_code_points.
    + apply utf8_of_code_points_bytes; [exact Hkept | by apply Forall_take].
Qed.

Lemma toProfileId_roundtrip_prefix_witness :
  exists kept dropped : JSString,
    replicate 9 0xE9 = kept ++ dropped
    /\ well_formed kept = true
    /\ toProfileIdUTF8
         [0; 0; 0; 0; 0; 0; 0; 0xC3; 0xA9; 0xC3; 0xA9; 0xC3; 0xA9; 0xC3; 0xA9; 0]
       = strip_bom kept.
Proof.
  apply (toProfileId_roundtrip_prefix "twitter" _ (replicate 9 0xE9) _ eq_refl
           eq_refl); [|reflexivity].
  repeat (constructor; [lia|]). constructor.
Defined.

(** ** Util.base64 *)

(** [Util.base64.decode] undoes [Util.base64.encode] on every well-formed
    string: one in which the surrogates are paired. *)
Theorem Util_base64_roundtrip (s : JSString) :
  well_formed s = true ->
  Util_base64_decode (Util_base64_encode s) = s.
Proof.
  intros Hwf. unfold Util_base64_decode, Util_base64_encode, Buffer_from_base64.
  destruct (Buffer_from_utf8_bytes s Hwf) as [Hbytes _].
  rewrite Buffer_from_base64_toString by exact Hbytes.
  by apply Buffer_toString_utf8_from_utf8.
Qed.

Lemma Util_base64_roundtrip_witness :
  Util_base64_decode (Util_base64_encode [0x20AC; 0xD83D; 0xDE00])
  = [0x20AC; 0xD83D; 0xDE00].
Proof. exact (Util_base64_roundtrip [0x20AC; 0xD83D; 0xDE00] eq_refl). Defined.

(** ** toPostIdBuf and the width of the postId chunk *)

Lemma Buffer_from_hex_length_le (s : JSString) :
  (2 * length (Buffer_from_hex s) <= length s)%nat.
Proof.
  remember (length s) as n eqn:Hn.
  revert s Hn. induction n as [n IH] using lt_wf_ind. intros s ->.
  destruct s as [|a [|b r]]; [simpl; lia..|].
  cbn [Buffer_from_hex]. destruct (unhex a), (unhex b); simpl; try lia.
  specialize (IH (length r) ltac:(simpl; lia) r eq_refl). lia.
Qed.

Lemma hex_fold_lower_bound (ds : list Z) (acc : Z) :
  Forall (fun d => 0 <= d < 16) ds -> 0 <= acc ->
  acc * 16 ^ Z.of_nat (length ds)
  <= fold_left (fun acc d => acc * 16 + d) ds acc.
Proof.
  intros Hds. revert acc. induction Hds as [|d r Hd _ IH]; intros acc Hacc.
  - simpl. lia.
  - cbn [fold_left length]. rewrite Nat2Z.inj_succ, Z.pow_succ_r by lia.
    etransitivity; [|apply IH; lia].
    assert (Hpow : 0 <= 16 ^ Z.of_nat (length r)) by (apply Z.pow_nonneg; lia).
    nia.
Qed.

Lemma PLATFORMS_postId_len (platform : string) (platformSpec : PlatformParameters) :
  Object_get PLATFORMS platform = Some platformSpec -> postId_len platformSpec = 8.
Proof.
  unfold PLATFORMS. simpl. destruct (String.eqb platform "twitter"); [|discriminate].
  by intros [= <-].
Qed.

Section PostIdWidth.

Variable Number_toString16 : JSString -> JSString.

(** A decimal postId whose value fits the platform's [postId.len] bytes (a
    64-bit integer for twitter) is encoded in at most that many bytes. *)
Theorem toPostIdBuf_fits_postId_len
    (platform : string) (platformSpec : PlatformParameters)
    (postId : JSString) (v : Z) :
  Object_get PLATFORMS platform = Some platformSpec ->
  regex_decimal_digits postId = true ->
  BigInt postId = Return v ->
  v < 2 ^ (8 * postId_len platformSpec) ->
  exists buf : Buffer,
    toPostIdBuf Number_toString16 platform postId = Return buf
    /\ Z.of_nat (length buf) <= postId_len platformSpec.
Proof.
  intros Hspec Hregex Hbig Hfits.
  rewrite (PLATFORMS_postId_len _ _ Hspec) in *.
  destruct (BigInt_decimal_digits postId Hregex) as (v' & Hbig' & Hv).
  assert (v' = v) as -> by congruence.
  unfold toPostIdBuf. rewrite Hspec.
  destruct (PLATFORMS_supported _ _ Hspec) as (-> & _ & _).
  rewrite Hbig. simpl mbind. eexists. split; [reflexivity|].
  destruct (Z.eq_dec v 0) as [->|Hnz]; [simpl; lia|].
  destruct (BigInt_toString16_spec v ltac:(lia)) as (d & r & -> & Hds & Hval & Hd).
  pose proof (Buffer_from_hex_length_le (List.map hex_digit (d :: r))) as Hlen.
  rewrite length_map in Hlen. cbn [length] in Hlen.
  apply Forall_cons in Hds as [Hd16 Hr].
  pose proof (hex_fold_lower_bound r (0 * 16 + d) Hr ltac:(lia)) as Hlow.
  unfold hex_value in Hval. cbn [fold_left] in Hval. rewrite Hval in Hlow.
  assert (Hpow : 16 ^ Z.of_nat (length r) < 16 ^ 16).
  { change (16 ^ 16) with (2 ^ (8 * 8)).
    assert (0 < 16 ^ Z.of_nat (length r)) by (apply Z.pow_pos_nonneg; lia).
    nia. }
  apply Z.pow_lt_mono_r_iff in Hpow; lia.
Qed.

End PostIdWidth.

Lemma toPostIdBuf_fits_postId_len_witness :
  exists buf : Buffer,
    toPostIdBuf (fun s => s) "twitter" (str "18446744073709551615") = Return buf
    /\ Z.of_nat (length buf) <= 8.
Proof.
  apply (toPostIdBuf_fits_postId_len (fun s => s) "twitter" _
           (str "18446744073709551615") 18446744073709551615 eq_refl eq_refl
           eq_refl).
  reflexivity.
Defined.
